(** * URL shortener: the registry of [main.py] and its four handlers

    A shallow embedding of [src/main.py]: the module-level dictionary
    [fake_db], the code generator [generate_short_code] and the handlers
    [shorten_url], [redirect_to_long_url], [get_all_urls] and
    [get_url_stats].

    The handlers are [async def] without any [await]: on the event loop
    each one runs from its first line to its [return] without
    interleaving, so a handler is a function from the state before the
    call to its result and the state after it. *)

From Stdlib Require Import String Ascii List ZArith Lia Bool Arith.
From Stdlib Require Import DecimalNat DecimalString.
Import ListNotations.

Local Open Scope string_scope.
Local Open Scope list_scope.

(** ** Python runtime pieces used by the module *)

(** [string.ascii_letters], [string.digits]. *)
Module PyString.

Definition ascii_lowercase : string := "abcdefghijklmnopqrstuvwxyz".
Definition ascii_uppercase : string := "ABCDEFGHIJKLMNOPQRSTUVWXYZ".
Definition ascii_letters : string := ascii_lowercase ++ ascii_uppercase.
Definition digits : string := "0123456789".

(** [s.rstrip(c)] for a one-character argument: drop the trailing run
    of [c]. *)
Fixpoint rstrip (c : ascii) (s : string) : string :=
  match s with
  | EmptyString => EmptyString
  | String a s' =>
      match rstrip c s' with
      | EmptyString => if Ascii.eqb a c then EmptyString else String a EmptyString
      | t => String a t
      end
  end.

(** [''.join(chars)]. *)
Definition join (chars : list ascii) : string := string_of_list_ascii chars.

End PyString.

(** A Python [dict] with [str] keys.  Iteration follows insertion order and
    the scan of [shorten_url] returns at its first hit, so the entries are
    kept as a list in insertion order.  A [dict] holds a key once:
    [PyDict.wf]. *)
Module PyDict.

Section Dict.
Context {V : Type}.

Definition t := list (string * V).

Definition empty : t := [].

(** [k in d] *)
Fixpoint contains (k : string) (d : t) : bool :=
  match d with
  | [] => false
  | (k', _) :: d' => if String.eqb k k' then true else contains k d'
  end.

(** [d[k]], [None] standing for [KeyError]. *)
Fixpoint get (k : string) (d : t) : option V :=
  match d with
  | [] => None
  | (k', v) :: d' => if String.eqb k k' then Some v else get k d'
  end.

(** Mutation of the object stored under [k], as in
    [d[k].attr = ...]: the entry keeps its place. *)
Fixpoint modify (k : string) (f : V -> V) (d : t) : t :=
  match d with
  | [] => []
  | (k', v) :: d' =>
      if String.eqb k k' then (k', f v) :: d' else (k', v) :: modify k f d'
  end.

(** [d[k] = v]: an existing key keeps its place, a new key goes last. *)
Definition set (k : string) (v : V) (d : t) : t :=
  if contains k d then modify k (fun _ => v) d else d ++ [(k, v)].

Definition items (d : t) : list (string * V) := d.
Definition keys (d : t) : list string := map fst d.
Definition values (d : t) : list V := map snd d.

Definition wf (d : t) : Prop := NoDup (keys d).

End Dict.

Arguments t : clear implicits.

End PyDict.

(** ** 1. Data models

    A validated [HttpUrl] is kept as the string it validates to; [==] on
    two of them is equality of these values.  Every [URLInfo] object is
    built in [shorten_url] and stored under one key of [fake_db], which
    holds the only lasting reference to it: the entries of the dictionary
    carry the objects themselves, and [url_info.clicks += 1] on
    [fake_db[short_code]] is [PyDict.modify] at that key. *)

Module URLCreate.
Record t := mk { long_url : string }.
End URLCreate.

Module URLShortened.
Record t := mk { long_url : string; short_code : string; short_url : string }.
End URLShortened.

Module URLInfo.
Record t := mk {
  id : string;
  long_url : string;
  short_code : string;
  short_url : string;
  clicks : Z
}.

(** [url_info.clicks = n] *)
Definition set_clicks (n : Z) (r : t) : t :=
  mk (id r) (long_url r) (short_code r) (short_url r) n.

(** [url_info.clicks += 1] *)
Definition incr_clicks (r : t) : t := set_clicks (clicks r + 1) r.
End URLInfo.

(** The part of the incoming [Request] the handler reads. *)
Module Request.
Record t := mk { base_url : string }.
End Request.

(** [urllib.parse.quote(string, safe)].  A [str] is encoded to UTF-8 first
    and quoted byte by byte; a [string] here is that sequence of bytes.  A
    byte that is a letter, a digit, one of [_.-~] or a character of [safe]
    stays; any other byte becomes [%XX], two upper-case hexadecimal
    digits. *)
Module PyUrllib.

Definition always_safe : string :=
  "ABCDEFGHIJKLMNOPQRSTUVWXYZabcdefghijklmnopqrstuvwxyz0123456789_.-~".

(** The byte [b] stays as it is. *)
Definition kept (safe : string) (b : ascii) : bool :=
  existsb (Ascii.eqb b) (list_ascii_of_string (always_safe ++ safe)).

Definition hex_digit (n : nat) : ascii :=
  nth n (list_ascii_of_string "0123456789ABCDEF") "0"%char.

(** ['%{:02X}'.format(b)] *)
Definition percent (b : ascii) : string :=
  String "%" (String (hex_digit (nat_of_ascii b / 16))
                     (String (hex_digit (nat_of_ascii b mod 16)) EmptyString)).

Definition quote_byte (safe : string) (b : ascii) : string :=
  if kept safe b then String b EmptyString else percent b.

Fixpoint quote (s : string) (safe : string) : string :=
  match s with
  | EmptyString => EmptyString
  | String b s' => quote_byte safe b ++ quote s' safe
  end.

(** No byte of [s] is replaced. *)
Definition unquoted (s : string) (safe : string) : bool :=
  forallb (kept safe) (list_ascii_of_string s).

End PyUrllib.

(** starlette's [RedirectResponse(url, status_code)].  Its constructor
    keeps the status code and sets the header
    [location = quote(str(url), safe=":/%#?=@[]!$&'()*+,;")]; the body is
    empty. *)
Module RedirectResponse.
Record t := mk { location : string; status_code : Z }.

Definition safe : string := ":/%#?=@[]!$&'()*+,;".

Definition init (url : string) (status_code : Z) : t :=
  mk (PyUrllib.quote url safe) status_code.
End RedirectResponse.

Definition HTTP_307_TEMPORARY_REDIRECT : Z := 307.
Definition HTTP_404_NOT_FOUND : Z := 404.

(** Exceptions a handler can leave with. *)
Inductive exn : Type :=
| HTTPException (status_code : Z) (detail : string)
| IndexError
| KeyError (key : string).

Definition NotFound : exn :=
  HTTPException HTTP_404_NOT_FOUND "URL corta no encontrada".

(** ** 3. The in-memory database and the sources of randomness *)

(** What [random.choice] and [uuid.uuid4] hand out, call after call.  The
    [n]-th call of [random.choice(seq)] returns [seq[choice_draw n mod
    len(seq)]]; the [n]-th call of [str(uuid.uuid4())] returns
    [uuid_draw n]. *)
Record Entropy := {
  choice_draw : nat -> nat;
  uuid_draw : nat -> string
}.

(** The module state: [fake_db] and how many draws each source has served. *)
Record World := mkWorld {
  fake_db : PyDict.t URLInfo.t;
  rand_pos : nat;
  uuid_pos : nat
}.

Definition init_world : World := mkWorld PyDict.empty 0 0.

(** Result of running a piece of the module: a value, an exception, or a
    loop that was still running when the fuel ran out. *)
Inductive outcome (A : Type) : Type :=
| Returned (a : A) (w : World)
| Raised (e : exn) (w : World)
| OutOfFuel.

Arguments Returned {A} a w.
Arguments Raised {A} e w.
Arguments OutOfFuel {A}.

Definition M (A : Type) : Type := World -> outcome A.

Definition ret {A} (a : A) : M A := fun w => Returned a w.

Definition bind {A B} (m : M A) (k : A -> M B) : M B :=
  fun w =>
    match m w with
    | Returned a w' => k a w'
    | Raised e w' => Raised e w'
    | OutOfFuel => OutOfFuel
    end.

Notation "x <- m ;; k" := (bind m (fun x => k))
  (at level 61, m at next level, right associativity).

(** ** Requests and replies *)

(** One request to the service and what it is answered with. *)
Inductive call : Type :=
| Shorten (url_create : URLCreate.t) (request : Request.t)
| Redirect (short_code : string)
| ListAll
| Stats (short_code : string).

Inductive reply : Type :=
| Shortened (r : URLShortened.t)
| Redirected (r : RedirectResponse.t)
| Listed (l : list URLInfo.t)
| StatsOf (r : URLInfo.t)
| Failed (e : exn).

(** ** Sample data

    Two sources of randomness, two long URLs and the states and histories
    they lead to; the examples at the end of the file run the handlers on
    them. *)
Module Demo.

Definition uuid_of (n : nat) : string :=
  "uuid-" ++ NilEmpty.string_of_uint (Nat.to_uint n).

(** Draws the alphabet in order: a, b, c, ... *)
Definition counting : Entropy :=
  {| choice_draw := fun n => n; uuid_draw := uuid_of |}.

(** Draws the first symbol of the alphabet at every call. *)
Definition stuck : Entropy :=
  {| choice_draw := fun _ => 0; uuid_draw := uuid_of |}.

Definition url_a : URLCreate.t := URLCreate.mk "https://example.com/a".
Definition url_b : URLCreate.t := URLCreate.mk "https://example.com/b".
Definition localhost : Request.t := Request.mk "http://127.0.0.1:8000/".

Definition info_a (code : string) (clicks : Z) : URLInfo.t :=
  URLInfo.mk "uuid-0" "https://example.com/a" code
             ("http://127.0.0.1:8000/" ++ code) clicks.
Definition info_b (code : string) (clicks : Z) : URLInfo.t :=
  URLInfo.mk "uuid-1" "https://example.com/b" code
             ("http://127.0.0.1:8000/" ++ code) clicks.

Definition shortened_a (code : string) : URLShortened.t :=
  URLShortened.mk "https://example.com/a" code ("http://127.0.0.1:8000/" ++ code).
Definition shortened_b (code : string) : URLShortened.t :=
  URLShortened.mk "https://example.com/b" code ("http://127.0.0.1:8000/" ++ code).

(** Under [counting]: after [url_a] was shortened, and after [url_b]
    was shortened too. *)
Definition world_a : World := mkWorld [("abcdef", info_a "abcdef" 0)] 6 1.
Definition world_ab : World :=
  mkWorld [("abcdef", info_a "abcdef" 0); ("ghijkl", info_b "ghijkl" 0)] 12 2.

(** [world_a] after two redirects of its code. *)
Definition world_a2 : World := mkWorld [("abcdef", info_a "abcdef" 2)] 6 1.

(** Under [stuck]: after [url_a] was shortened. *)
Definition stuck_world : World := mkWorld [("aaaaaa", info_a "aaaaaa" 0)] 6 1.

Definition history_ab : list (call * reply) :=
  [ (Shorten url_a localhost, Shortened (shortened_a "abcdef"));
    (Shorten url_b localhost, Shortened (shortened_b "ghijkl")) ].

Definition redirected_a : reply :=
  Redirected (RedirectResponse.mk "https://example.com/a" HTTP_307_TEMPORARY_REDIRECT).

Definition history_clicks : list (call * reply) :=
  [ (Redirect "abcdef", redirected_a);
    (Stats "zzzzzz", Failed NotFound);
    (Redirect "abcdef", redirected_a) ].

(** A long URL with a character that [RedirectResponse] quotes, and the
    state after it was shortened under [counting]. *)
Definition url_pipe : URLCreate.t := URLCreate.mk "https://example.com/?q=a|b".
Definition shortened_pipe : URLShortened.t :=
  URLShortened.mk "https://example.com/?q=a|b" "abcdef"
                  "http://127.0.0.1:8000/abcdef".
Definition world_pipe : World :=
  mkWorld [("abcdef",
            URLInfo.mk "uuid-0" "https://example.com/?q=a|b" "abcdef"
                       "http://127.0.0.1:8000/abcdef" 0)] 6 1.

(** [url_a] shortened a second time, from another host, after [url_b]. *)
Definition history_aba : list (call * reply) :=
  history_ab ++
  [ (Shorten url_a (Request.mk "https://sho.rt"),
     Shortened (URLShortened.mk "https://example.com/a" "abcdef"
                                "https://sho.rt/abcdef")) ].

(** From the empty registry: [url_a] shortened, then [history_clicks]. *)
Definition history_a_clicks : list (call * reply) :=
  (Shorten url_a localhost, Shortened (shortened_a "abcdef")) :: history_clicks.

End Demo.

Section Handlers.

Variable E : Entropy.

(** [random.choice(seq)]: [IndexError] on an empty sequence. *)
Definition random_choice (seq : list ascii) : M ascii :=
  fun w =>
    match seq with
    | [] => Raised IndexError w
    | c :: _ =>
        Returned (nth (choice_draw E (rand_pos w) mod length seq) seq c)
                 (mkWorld (fake_db w) (S (rand_pos w)) (uuid_pos w))
    end.

(** [str(uuid.uuid4())] *)
Definition uuid4 : M string :=
  fun w =>
    Returned (uuid_draw E (uuid_pos w))
             (mkWorld (fake_db w) (rand_pos w) (S (uuid_pos w))).

(** [characters = string.ascii_letters + string.digits] *)
Definition characters : list ascii :=
  list_ascii_of_string (PyString.ascii_letters ++ PyString.digits).

(** [random.choice(characters) for i in range(n)], drawn left to right. *)
Fixpoint draw_chars (n : nat) : M (list ascii) :=
  match n with
  | O => ret []
  | S n' =>
      c <- random_choice characters ;;
      cs <- draw_chars n' ;;
      ret (c :: cs)
  end.

(** [generate_short_code(length)].  [range(length)] is empty for a
    negative [length].  One unit of [fuel] pays for one turn of the
    [while True] loop. *)
Fixpoint generate_short_code (fuel : nat) (length : Z) : M string :=
  match fuel with
  | O => fun _ => OutOfFuel
  | S fuel' =>
      cs <- draw_chars (Z.to_nat length) ;;
      let short_code := PyString.join cs in
      fun w =>
        if negb (PyDict.contains short_code (fake_db w))
        then Returned short_code w
        else generate_short_code fuel' length w
  end.

(** The [for short_code, url_info in fake_db.items()] loop of
    [shorten_url]: the key of the first entry whose [long_url] is the
    submitted one. *)
Fixpoint find_long_url (u : string) (entries : list (string * URLInfo.t))
  : option string :=
  match entries with
  | [] => None
  | (short_code, url_info) :: rest =>
      if String.eqb (URLInfo.long_url url_info) u
      then Some short_code
      else find_long_url u rest
  end.

Definition full_short_url (request : Request.t) (short_code : string) : string :=
  let base_url := PyString.rstrip "/"%char (Request.base_url request) in
  base_url ++ "/" ++ short_code.

(** [POST /shorten].  The generator is called with its default
    [length = 6]; the right-hand side of the assignment to
    [fake_db[short_code]], and with it [uuid.uuid4()], is evaluated after
    the generator has returned and before the store. *)
Definition shorten_url (fuel : nat) (url_create : URLCreate.t)
           (request : Request.t) : M URLShortened.t :=
  fun w =>
    match find_long_url (URLCreate.long_url url_create)
                        (PyDict.items (fake_db w)) with
    | Some short_code =>
        Returned (URLShortened.mk (URLCreate.long_url url_create) short_code
                                  (full_short_url request short_code)) w
    | None =>
        (short_code <- generate_short_code fuel 6 ;;
         let short_url_full := full_short_url request short_code in
         id <- uuid4 ;;
         fun w' =>
           let info := URLInfo.mk id (URLCreate.long_url url_create)
                                  short_code short_url_full 0 in
           Returned (URLShortened.mk (URLCreate.long_url url_create)
                                     short_code short_url_full)
                    (mkWorld (PyDict.set short_code info (fake_db w'))
                             (rand_pos w') (uuid_pos w'))) w
    end.

(** [GET /{short_code}]: the counter of the stored object goes up by one
    before the response is built. *)
Definition redirect_to_long_url (short_code : string) : M RedirectResponse.t :=
  fun w =>
    if negb (PyDict.contains short_code (fake_db w))
    then Raised NotFound w
    else
      match PyDict.get short_code (fake_db w) with
      | None => Raised (KeyError short_code) w
      | Some url_info =>
          Returned (RedirectResponse.init (URLInfo.long_url url_info)
                                          HTTP_307_TEMPORARY_REDIRECT)
                   (mkWorld (PyDict.modify short_code URLInfo.incr_clicks (fake_db w))
                            (rand_pos w) (uuid_pos w))
      end.

(** [GET /urls/all] *)
Definition get_all_urls : M (list URLInfo.t) :=
  fun w => Returned (PyDict.values (fake_db w)) w.

(** [GET /urls/{short_code}/stats] *)
Definition get_url_stats (short_code : string) : M URLInfo.t :=
  fun w =>
    if negb (PyDict.contains short_code (fake_db w))
    then Raised NotFound w
    else
      match PyDict.get short_code (fake_db w) with
      | None => Raised (KeyError short_code) w
      | Some url_info => Returned url_info w
      end.

(** ** The service as a transition system *)

Definition answer {A} (wrap : A -> reply) (o : outcome A)
  : option (reply * World) :=
  match o with
  | Returned a w => Some (wrap a, w)
  | Raised e w => Some (Failed e, w)
  | OutOfFuel => None
  end.

(** Dispatch of one request; [None] when the handler is still looping
    after [fuel] turns. *)
Definition handle (fuel : nat) (c : call) (w : World)
  : option (reply * World) :=
  match c with
  | Shorten url_create request =>
      answer Shortened (shorten_url fuel url_create request w)
  | Redirect short_code => answer Redirected (redirect_to_long_url short_code w)
  | ListAll => answer Listed (get_all_urls w)
  | Stats short_code => answer StatsOf (get_url_stats short_code w)
  end.

(** [run w t w']: served one after the other from [w], the requests of
    [t] got the replies of [t] and left the module in [w']. *)
Inductive run : World -> list (call * reply) -> World -> Prop :=
| run_nil : forall w, run w [] w
| run_cons : forall fuel c r w w1 t w2,
    handle fuel c w = Some (r, w1) ->
    run w1 t w2 ->
    run w ((c, r) :: t) w2.

(** States the process can be in: those a history leads to from the
    freshly imported module. *)
Definition reachable (w : World) : Prop := exists t, run init_world t w.

(** The submitted long URL and the answered short code of every
    [POST /shorten] of a history, oldest first. *)
Fixpoint shortened (t : list (call * reply)) : list (string * string) :=
  match t with
  | [] => []
  | (Shorten url_create _, Shortened r) :: t' =>
      (URLCreate.long_url url_create, URLShortened.short_code r) :: shortened t'
  | _ :: t' => shortened t'
  end.

(** Number of redirects a history served for [code]. *)
Fixpoint redirects_of (code : string) (t : list (call * reply)) : nat :=
  match t with
  | [] => 0
  | (Redirect c, Redirected _) :: t' =>
      (if String.eqb c code then 1 else 0) + redirects_of code t'
  | _ :: t' => redirects_of code t'
  end.

(** ** Invariants of the registry *)

(** Every record sits under its own [short_code]. *)
Definition key_field_agree (d : PyDict.t URLInfo.t) : Prop :=
  forall c r, PyDict.get c d = Some r -> URLInfo.short_code r = c.

(** The [short_code] fields of the stored records, in storage order. *)
Definition stored_codes (d : PyDict.t URLInfo.t) : list string :=
  map URLInfo.short_code (PyDict.values d).

Definition stored_urls (d : PyDict.t URLInfo.t) : list string :=
  map URLInfo.long_url (PyDict.values d).

(** Number of records whose [long_url] is [u]. *)
Definition records_for (u : string) (d : PyDict.t URLInfo.t) : nat :=
  length (filter (fun r => String.eqb (URLInfo.long_url r) u) (PyDict.values d)).

Definition registry_inv (d : PyDict.t URLInfo.t) : Prop :=
  PyDict.wf d /\
  Forall (fun kr => URLInfo.short_code (snd kr) = fst kr) d /\
  NoDup (stored_urls d).

(** Everything but the counter. *)
Definition same_link (a b : URLInfo.t) : Prop :=
  URLInfo.id a = URLInfo.id b /\
  URLInfo.long_url a = URLInfo.long_url b /\
  URLInfo.short_code a = URLInfo.short_code b /\
  URLInfo.short_url a = URLInfo.short_url b.

(** ** The candidates of the generator *)

Definition pick (i : nat) : ascii :=
  match characters with
  | [] => "000"%char
  | c :: _ => nth (choice_draw E i mod length characters) characters c
  end.

(** The [n] characters drawn from position [p] of the source on. *)
Definition drawn (n p : nat) : list ascii := map pick (seq p n).

(** The candidate of turn [i] of the loop when it was entered at
    position [p] of the source. *)
Definition candidate (length : Z) (p i : nat) : string :=
  PyString.join (drawn (Z.to_nat length) (p + i * Z.to_nat length)).

(** The state the loop leaves behind after [turns] turns: only the
    position in the source of [random.choice] has moved. *)
Definition after_turns (length : Z) (turns : nat) (w : World) : World :=
  mkWorld (fake_db w) (rand_pos w + turns * Z.to_nat length) (uuid_pos w).

(** Turn [i] is the first one whose candidate is not a key of [d]. *)
Definition first_free (length : Z) (p : nat) (d : PyDict.t URLInfo.t) (i : nat)
  : Prop :=
  PyDict.contains (candidate length p i) d = false /\
  forall j, j < i -> PyDict.contains (candidate length p j) d = true.

(** A string the generator can produce with [length = 6]. *)
Definition code_shaped (c : string) : Prop :=
  String.length c = 6 /\ Forall (fun a => In a characters) (list_ascii_of_string c).

(** ** What a request does to the registry

    [effect c r d d']: request [c] answered with [r] took the
    dictionary from [d] to [d'].  The relation forgets the fuel and the
    sources of randomness; [handle_effect] below shows that every step
    of [handle] is one of these. *)
Inductive effect : call -> reply -> PyDict.t URLInfo.t -> PyDict.t URLInfo.t -> Prop :=
| effect_retrieve : forall url_create request code d,
    find_long_url (URLCreate.long_url url_create) d = Some code ->
    effect (Shorten url_create request)
           (Shortened (URLShortened.mk (URLCreate.long_url url_create) code
                                       (full_short_url request code)))
           d d
| effect_create : forall url_create request code id d,
    find_long_url (URLCreate.long_url url_create) d = None ->
    PyDict.contains code d = false ->
    code_shaped code ->
    effect (Shorten url_create request)
           (Shortened (URLShortened.mk (URLCreate.long_url url_create) code
                                       (full_short_url request code)))
           d
           (d ++ [(code, URLInfo.mk id (URLCreate.long_url url_create) code
                                    (full_short_url request code) 0)])
| effect_redirect : forall code url_info d,
    PyDict.get code d = Some url_info ->
    effect (Redirect code)
           (Redirected (RedirectResponse.init (URLInfo.long_url url_info)
                                              HTTP_307_TEMPORARY_REDIRECT))
           d (PyDict.modify code URLInfo.incr_clicks d)
| effect_redirect_unknown : forall code d,
    PyDict.contains code d = false ->
    effect (Redirect code) (Failed NotFound) d d
| effect_list : forall d,
    effect ListAll (Listed (PyDict.values d)) d d
| effect_stats : forall code url_info d,
    PyDict.get code d = Some url_info ->
    effect (Stats code) (StatsOf url_info) d d
| effect_stats_unknown : forall code d,
    PyDict.contains code d = false ->
    effect (Stats code) (Failed NotFound) d d.

(** ** More vocabulary for registries and histories *)

(** [keys] with [code] put last unless it is there already. *)
Definition add_key (keys : list string) (code : string) : list string :=
  if existsb (String.eqb code) keys then keys else keys ++ [code].

(** The codes [POST /shorten] answered in a history, each at the place of
    its first answer, behind the codes of [start]. *)
Definition issue_order (start : list string) (t : list (call * reply))
  : list string :=
  fold_left add_key (map snd (shortened t)) start.

(** Sum of the [clicks] of all records. *)
Definition total_clicks (d : PyDict.t URLInfo.t) : Z :=
  fold_right Z.add 0%Z (map URLInfo.clicks (PyDict.values d)).

(** Number of redirects a history served, whatever the code. *)
Fixpoint successful_redirects (t : list (call * reply)) : nat :=
  match t with
  | [] => 0
  | (Redirect _, Redirected _) :: t' => S (successful_redirects t')
  | _ :: t' => successful_redirects t'
  end.

(** The [id] fields of the stored records, in storage order. *)
Definition stored_ids (d : PyDict.t URLInfo.t) : list string :=
  map URLInfo.id (PyDict.values d).

(** The last character of a string. *)
Fixpoint last_char (s : string) : option ascii :=
  match s with
  | EmptyString => None
  | String a s' =>
      match last_char s' with
      | None => Some a
      | Some b => Some b
      end
  end.

(** The string made of [n] times the character [c]. *)
Definition run_of (c : ascii) (n : nat) : string :=
  string_of_list_ascii (repeat c n).

(** ** Facts about dictionaries *)

Section DictFacts.
Context {V : Type}.
Implicit Types (d : PyDict.t V) (k : string) (v : V).

Lemma contains_In k d :
  PyDict.contains k d = true <-> In k (PyDict.keys d).
Proof.
  induction d as [|[k' v'] d IH]; simpl.
  - split; [discriminate | tauto].
  - destruct (String.eqb_spec k k') as [->|Hne].
    + split; auto.
    + rewrite IH. split; [auto | intros [Heq|H]; [congruence | exact H]].
Qed.

Lemma contains_false_In k d :
  PyDict.contains k d = false <-> ~ In k (PyDict.keys d).
Proof.
  rewrite <- contains_In. destruct (PyDict.contains k d); split; congruence.
Qed.

Lemma get_None_contains k d :
  PyDict.get k d = None <-> PyDict.contains k d = false.
Proof.
  induction d as [|[k' v'] d IH]; simpl.
  - tauto.
  - destruct (String.eqb k k'); [split; discriminate | exact IH].
Qed.

Lemma get_Some_contains k d v :
  PyDict.get k d = Some v -> PyDict.contains k d = true.
Proof.
  intros H. destruct (PyDict.contains k d) eqn:Hc; [reflexivity|].
  apply get_None_contains in Hc. congruence.
Qed.

Lemma contains_get k d :
  PyDict.contains k d = true -> exists v, PyDict.get k d = Some v.
Proof.
  intros H. destruct (PyDict.get k d) as [v|] eqn:Hg; [eauto|].
  apply get_None_contains in Hg. congruence.
Qed.

Lemma get_In k d v : PyDict.get k d = Some v -> In (k, v) d.
Proof.
  induction d as [|[k' v'] d IH]; simpl; [discriminate|].
  destruct (String.eqb_spec k k') as [->|Hne].
  - intros [= ->]. now left.
  - intros H. right. auto.
Qed.

Lemma In_get k d v : PyDict.wf d -> In (k, v) d -> PyDict.get k d = Some v.
Proof.
  unfold PyDict.wf.
  induction d as [|[k' v'] d IH]; simpl; [tauto|].
  intros Hnd [Heq|Hin].
  - injection Heq as -> ->. now rewrite String.eqb_refl.
  - inversion Hnd as [|? ? Hnotin Hnd']; subst.
    destruct (String.eqb_spec k k') as [->|Hne]; [|auto].
    exfalso. apply Hnotin. change k' with (fst (k', v)). now apply in_map.
Qed.

Lemma keys_modify k (f : V -> V) d :
  PyDict.keys (PyDict.modify k f d) = PyDict.keys d.
Proof.
  induction d as [|[k' v'] d IH]; simpl; [reflexivity|].
  destruct (String.eqb k k'); simpl; [reflexivity | now f_equal].
Qed.

Lemma contains_modify k' k (f : V -> V) d :
  PyDict.contains k' (PyDict.modify k f d) = PyDict.contains k' d.
Proof.
  induction d as [|[k0 v0] d IH]; simpl; [reflexivity|].
  destruct (String.eqb k k0); simpl; [reflexivity | now rewrite IH].
Qed.

Lemma get_modify_same k (f : V -> V) d :
  PyDict.get k (PyDict.modify k f d) = option_map f (PyDict.get k d).
Proof.
  induction d as [|[k' v'] d IH]; simpl; [reflexivity|].
  destruct (String.eqb k k') eqn:Hk; simpl; rewrite Hk; [reflexivity | exact IH].
Qed.

Lemma get_modify_other k' k (f : V -> V) d :
  k' <> k -> PyDict.get k' (PyDict.modify k f d) = PyDict.get k' d.
Proof.
  intros Hne.
  induction d as [|[k0 v0] d IH]; simpl; [reflexivity|].
  destruct (String.eqb_spec k k0) as [->|Hk]; simpl.
  - destruct (String.eqb_spec k' k0); [congruence | reflexivity].
  - now rewrite IH.
Qed.

Lemma set_fresh k v d :
  PyDict.contains k d = false -> PyDict.set k v d = d ++ [(k, v)].
Proof. unfold PyDict.set. now intros ->. Qed.

Lemma get_app k d d' :
  PyDict.get k (d ++ d') =
  match PyDict.get k d with Some v => Some v | None => PyDict.get k d' end.
Proof.
  induction d as [|[k' v'] d IH]; simpl; [reflexivity|].
  destruct (String.eqb k k'); [reflexivity | exact IH].
Qed.

Lemma get_set_fresh_same k v d :
  PyDict.contains k d = false -> PyDict.get k (PyDict.set k v d) = Some v.
Proof.
  intros Hc. rewrite (set_fresh _ _ _ Hc), get_app.
  apply get_None_contains in Hc. rewrite Hc. simpl.
  now rewrite String.eqb_refl.
Qed.

Lemma get_set_fresh_other k' k v d :
  PyDict.contains k d = false -> k' <> k ->
  PyDict.get k' (PyDict.set k v d) = PyDict.get k' d.
Proof.
  intros Hc Hne. rewrite (set_fresh _ _ _ Hc), get_app. simpl.
  destruct (String.eqb_spec k' k); [congruence|].
  now destruct (PyDict.get k' d).
Qed.

Lemma wf_snoc k v d :
  PyDict.wf d -> PyDict.contains k d = false -> PyDict.wf (d ++ [(k, v)]).
Proof.
  unfold PyDict.wf, PyDict.keys. intros Hnd Hc.
  rewrite map_app. simpl.
  apply contains_false_In in Hc.
  apply NoDup_app; [exact Hnd | repeat constructor; simpl; tauto |].
  intros x Hx [<-|[]]. now apply Hc.
Qed.

End DictFacts.

(** ** The alphabet and the draws *)

Lemma characters_length : length characters = 62.
Proof. reflexivity. Qed.

Lemma characters_NoDup : NoDup characters.
Proof.
  assert (H : nodup ascii_dec characters = characters) by (vm_compute; reflexivity).
  rewrite <- H. apply NoDup_nodup.
Qed.

Lemma characters_nonempty : characters <> [].
Proof.
  intros H. apply (f_equal (@length ascii)) in H.
  rewrite characters_length in H. discriminate.
Qed.

Lemma pick_In i : In (pick i) characters.
Proof.
  unfold pick. pose proof characters_nonempty as Hne.
  destruct characters as [|c cs] eqn:Hc; [congruence|].
  apply nth_In. apply Nat.mod_upper_bound. simpl. lia.
Qed.

Lemma random_choice_characters w :
  random_choice characters w =
  Returned (pick (rand_pos w)) (mkWorld (fake_db w) (S (rand_pos w)) (uuid_pos w)).
Proof.
  unfold random_choice, pick. pose proof characters_nonempty as Hne.
  destruct characters as [|c cs]; [congruence | reflexivity].
Qed.

Lemma draw_chars_spec n w :
  draw_chars n w =
  Returned (drawn n (rand_pos w))
           (mkWorld (fake_db w) (rand_pos w + n) (uuid_pos w)).
Proof.
  revert w. induction n as [|n IH]; intros w.
  - destruct w; simpl. unfold ret, drawn. simpl. now rewrite Nat.add_0_r.
  - cbn [draw_chars]. unfold bind at 1. rewrite random_choice_characters.
    unfold bind. rewrite IH. unfold ret, drawn. simpl.
    now rewrite Nat.add_succ_r.
Qed.

Lemma drawn_length n p : length (drawn n p) = n.
Proof. unfold drawn. now rewrite length_map, length_seq. Qed.

Lemma drawn_In n p : Forall (fun a => In a characters) (drawn n p).
Proof.
  unfold drawn. apply Forall_forall. intros a Ha.
  apply in_map_iff in Ha as (i & <- & _). apply pick_In.
Qed.

Lemma join_length cs : String.length (PyString.join cs) = length cs.
Proof.
  unfold PyString.join. induction cs as [|c cs IH]; simpl; [reflexivity | now f_equal].
Qed.

Lemma candidate_shaped p i : code_shaped (candidate 6 p i).
Proof.
  unfold code_shaped, candidate, PyString.join. split.
  - fold (PyString.join (drawn (Z.to_nat 6) (p + i * Z.to_nat 6))).
    now rewrite join_length, drawn_length.
  - rewrite list_ascii_of_string_of_list_ascii. apply drawn_In.
Qed.

Lemma candidate_shift length p i :
  candidate length (p + Z.to_nat length) i = candidate length p (S i).
Proof. unfold candidate. do 2 f_equal. lia. Qed.

Lemma candidate_0 length p :
  candidate length p 0 = PyString.join (drawn (Z.to_nat length) p).
Proof. unfold candidate. do 2 f_equal. lia. Qed.

(** ** The retry loop *)

Lemma generate_step fuel length w :
  generate_short_code (S fuel) length w =
  if negb (PyDict.contains (candidate length (rand_pos w) 0) (fake_db w))
  then Returned (candidate length (rand_pos w) 0) (after_turns length 1 w)
  else generate_short_code fuel length (after_turns length 1 w).
Proof.
  cbn [generate_short_code]. unfold bind. rewrite draw_chars_spec.
  rewrite candidate_0. unfold after_turns. cbn [fake_db].
  now rewrite Nat.mul_1_l.
Qed.

Lemma after_turns_S length i w :
  after_turns length i (after_turns length 1 w) = after_turns length (S i) w.
Proof. unfold after_turns. cbn [fake_db rand_pos uuid_pos]. f_equal. lia. Qed.

Lemma rand_pos_after_1 length w :
  rand_pos (after_turns length 1 w) = rand_pos w + Z.to_nat length.
Proof. unfold after_turns. cbn [rand_pos]. lia. Qed.

Lemma fake_db_after length i w : fake_db (after_turns length i w) = fake_db w.
Proof. reflexivity. Qed.

Lemma first_free_shift length p d i :
  PyDict.contains (candidate length p 0) d = true ->
  (first_free length (p + Z.to_nat length) d i <-> first_free length p d (S i)).
Proof.
  intros H0. unfold first_free. rewrite candidate_shift.
  split; intros [Hf Hlt]; split; try exact Hf.
  - intros [|j] Hj; [exact H0|]. rewrite <- candidate_shift. apply Hlt. lia.
  - intros j Hj. rewrite candidate_shift. apply Hlt. lia.
Qed.

Lemma generate_first_free fuel length w i :
  first_free length (rand_pos w) (fake_db w) i -> i < fuel ->
  generate_short_code fuel length w =
  Returned (candidate length (rand_pos w) i) (after_turns length (S i) w).
Proof.
  revert w i. induction fuel as [|fuel IH]; intros w i Hff Hlt; [lia|].
  rewrite generate_step. destruct i as [|i].
  - destruct Hff as [-> _]. reflexivity.
  - pose proof Hff as [_ Hbefore].
    assert (H0 : PyDict.contains (candidate length (rand_pos w) 0) (fake_db w) = true)
      by (apply Hbefore; lia).
    rewrite H0. cbn [negb].
    apply (first_free_shift _ _ _ _ H0) in Hff.
    rewrite (IH (after_turns length 1 w) i);
      [| rewrite rand_pos_after_1, fake_db_after; exact Hff | lia].
    now rewrite after_turns_S, rand_pos_after_1, candidate_shift.
Qed.

Lemma generate_all_taken fuel length w :
  (forall j, j < fuel ->
             PyDict.contains (candidate length (rand_pos w) j) (fake_db w) = true) ->
  generate_short_code fuel length w = OutOfFuel.
Proof.
  revert w. induction fuel as [|fuel IH]; intros w Hall; [reflexivity|].
  rewrite generate_step, (Hall 0) by lia. cbn [negb].
  apply IH. intros j Hj.
  rewrite rand_pos_after_1, fake_db_after, candidate_shift. apply Hall. lia.
Qed.

(** Among the first [n] turns either one is the first free one or all
    candidates are taken. *)
Lemma first_free_or_taken length p d n :
  (exists i, i < n /\ first_free length p d i) \/
  (forall j, j < n -> PyDict.contains (candidate length p j) d = true).
Proof.
  induction n as [|n [(i & Hi & Hff)|Hall]].
  - right. intros j Hj. lia.
  - left. exists i. split; [lia | exact Hff].
  - destruct (PyDict.contains (candidate length p n) d) eqn:Hn.
    + right. intros j Hj. destruct (Nat.eq_dec j n) as [->|]; [exact Hn|].
      apply Hall. lia.
    + left. exists n. split; [lia|]. split; assumption.
Qed.

(** What a call of the generator comes to, for every amount of fuel. *)
Lemma generate_cases fuel length w :
  (exists i, i < fuel /\ first_free length (rand_pos w) (fake_db w) i /\
             generate_short_code fuel length w =
             Returned (candidate length (rand_pos w) i)
                      (after_turns length (S i) w)) \/
  ((forall j, j < fuel ->
              PyDict.contains (candidate length (rand_pos w) j) (fake_db w) = true) /\
   generate_short_code fuel length w = OutOfFuel).
Proof.
  destruct (first_free_or_taken length (rand_pos w) (fake_db w) fuel)
    as [(i & Hi & Hff)|Hall].
  - left. exists i. repeat split; try assumption; try apply Hff.
    now apply generate_first_free.
  - right. split; [exact Hall | now apply generate_all_taken].
Qed.

Lemma generate_returned fuel length w c w' :
  generate_short_code fuel length w = Returned c w' ->
  exists i, i < fuel /\ first_free length (rand_pos w) (fake_db w) i /\
            c = candidate length (rand_pos w) i /\
            w' = after_turns length (S i) w.
Proof.
  intros H.
  destruct (generate_cases fuel length w) as [(i & Hi & Hff & Heq)|[_ Heq]];
    rewrite Heq in H; [|discriminate].
  injection H as <- <-. exists i. auto.
Qed.

Lemma generate_not_raised fuel length w e w' :
  generate_short_code fuel length w <> Raised e w'.
Proof.
  destruct (generate_cases fuel length w) as [(i & _ & _ & ->)|[_ ->]]; discriminate.
Qed.

(** ** The handlers, case by case *)

Lemma find_long_url_Some u d code :
  find_long_url u d = Some code ->
  exists url_info, In (code, url_info) d /\ URLInfo.long_url url_info = u.
Proof.
  induction d as [|[k r] d IH]; simpl; [discriminate|].
  destruct (String.eqb_spec (URLInfo.long_url r) u) as [Hu|Hu].
  - intros [= ->]. exists r. split; [now left | exact Hu].
  - intros H. destruct (IH H) as (r' & Hin & Hr'). exists r'. auto.
Qed.

Lemma find_long_url_None u d :
  find_long_url u d = None <-> ~ In u (stored_urls d).
Proof.
  unfold stored_urls, PyDict.values.
  induction d as [|[k r] d IH]; simpl; [tauto|].
  destruct (String.eqb_spec (URLInfo.long_url r) u) as [Hu|Hu].
  - split; [discriminate | intros H; exfalso; apply H; now left].
  - rewrite IH. tauto.
Qed.

Lemma find_long_url_get u d code :
  PyDict.wf d -> find_long_url u d = Some code ->
  exists url_info, PyDict.get code d = Some url_info /\ URLInfo.long_url url_info = u.
Proof.
  intros Hwf H. apply find_long_url_Some in H as (r & Hin & Hu).
  exists r. split; [now apply In_get | exact Hu].
Qed.

Lemma shorten_url_retrieve fuel url_create request w code :
  find_long_url (URLCreate.long_url url_create) (fake_db w) = Some code ->
  shorten_url fuel url_create request w =
  Returned (URLShortened.mk (URLCreate.long_url url_create) code
                            (full_short_url request code)) w.
Proof. unfold shorten_url, PyDict.items. now intros ->. Qed.

(** The world after the creation branch of [shorten_url] when the loop
    stopped at turn [i]. *)
Lemma shorten_url_create fuel url_create request w :
  find_long_url (URLCreate.long_url url_create) (fake_db w) = None ->
  shorten_url fuel url_create request w =
  match generate_short_code fuel 6 w with
  | Returned code w1 =>
      Returned (URLShortened.mk (URLCreate.long_url url_create) code
                                (full_short_url request code))
               (mkWorld (PyDict.set code
                           (URLInfo.mk (uuid_draw E (uuid_pos w1))
                                       (URLCreate.long_url url_create) code
                                       (full_short_url request code) 0)
                           (fake_db w1))
                        (rand_pos w1) (S (uuid_pos w1)))
  | Raised e w1 => Raised e w1
  | OutOfFuel => OutOfFuel
  end.
Proof.
  unfold shorten_url, PyDict.items. intros ->. unfold bind.
  destruct (generate_short_code fuel 6 w); reflexivity.
Qed.

Lemma shorten_url_not_raised fuel url_create request w e w' :
  shorten_url fuel url_create request w <> Raised e w'.
Proof.
  destruct (find_long_url (URLCreate.long_url url_create) (fake_db w)) as [code|] eqn:Hf.
  - rewrite (shorten_url_retrieve _ _ _ _ _ Hf). discriminate.
  - rewrite (shorten_url_create _ _ _ _ Hf).
    destruct (generate_short_code fuel 6 w) eqn:Hg; try discriminate.
    now apply generate_not_raised in Hg.
Qed.

Lemma handle_effect fuel c w r w' :
  handle fuel c w = Some (r, w') -> effect c r (fake_db w) (fake_db w').
Proof.
  destruct c as [url_create request|code| |code]; cbn [handle].
  - destruct (find_long_url (URLCreate.long_url url_create) (fake_db w))
      as [code|] eqn:Hf.
    + rewrite (shorten_url_retrieve _ _ _ _ _ Hf). intros [= <- <-].
      now constructor.
    + rewrite (shorten_url_create _ _ _ _ Hf).
      destruct (generate_short_code fuel 6 w) as [code w1|e w1|] eqn:Hg;
        cbn [answer]; [| now apply generate_not_raised in Hg | discriminate].
      apply generate_returned in Hg as (i & _ & [Hfree _] & -> & ->).
      intros [= <- <-]. cbn [fake_db after_turns].
      rewrite (set_fresh _ _ _ Hfree).
      constructor; [exact Hf | exact Hfree | apply candidate_shaped].
  - unfold redirect_to_long_url.
    destruct (PyDict.contains code (fake_db w)) eqn:Hc; cbn [negb answer].
    + destruct (contains_get _ _ Hc) as [v Hv]. rewrite Hv. cbn [answer].
      intros [= <- <-]. now constructor.
    + intros [= <- <-]. now constructor.
  - unfold get_all_urls. cbn [answer]. intros [= <- <-]. constructor.
  - unfold get_url_stats.
    destruct (PyDict.contains code (fake_db w)) eqn:Hc; cbn [negb answer].
    + destruct (contains_get _ _ Hc) as [v Hv]. rewrite Hv. cbn [answer].
      intros [= <- <-]. now constructor.
    + intros [= <- <-]. now constructor.
Qed.

(** ** Invariants along a history *)

Lemma modify_Forall (P : string * URLInfo.t -> Prop) k f d :
  (forall k' v, P (k', v) -> P (k', f v)) ->
  Forall P d -> Forall P (PyDict.modify k f d).
Proof.
  intros Hf. induction 1 as [|[k' v] d Hx Hd IH]; simpl; [constructor|].
  destruct (String.eqb k k'); constructor; auto.
Qed.

Lemma values_modify_map {B} (g : URLInfo.t -> B) k f d :
  (forall v, g (f v) = g v) ->
  map g (PyDict.values (PyDict.modify k f d)) = map g (PyDict.values d).
Proof.
  intros Hg. unfold PyDict.values.
  induction d as [|[k' v] d IH]; simpl; [reflexivity|].
  destruct (String.eqb k k'); simpl; [now rewrite Hg | now rewrite IH].
Qed.

Lemma registry_inv_empty : registry_inv PyDict.empty.
Proof. repeat split; constructor. Qed.

Lemma effect_inv c r d d' :
  effect c r d d' -> registry_inv d -> registry_inv d'.
Proof.
  intros Heff (Hwf & Hkey & Hurl).
  destruct Heff as [| uc rq code id d Hfind Hfree _ | code info d Hget | | | |];
    try (repeat split; assumption).
  - repeat split.
    + now apply wf_snoc.
    + apply Forall_app. split; [exact Hkey | now repeat constructor].
    + unfold stored_urls, PyDict.values. rewrite !map_app. simpl.
      apply find_long_url_None in Hfind.
      apply NoDup_app; [exact Hurl | repeat constructor; simpl; tauto |].
      intros x Hx [<-|[]]. now apply Hfind.
  - repeat split.
    + unfold PyDict.wf. now rewrite keys_modify.
    + apply modify_Forall; [|exact Hkey]. now intros k' [].
    + unfold stored_urls. rewrite values_modify_map; [exact Hurl | now intros []].
Qed.

Lemma run_inv w t w' :
  run w t w' -> registry_inv (fake_db w) -> registry_inv (fake_db w').
Proof.
  induction 1 as [|fuel c r w w1 t w2 Hstep _ IH]; [auto|].
  intros Hinv. apply IH. eapply effect_inv; [|exact Hinv].
  eapply handle_effect; exact Hstep.
Qed.

Lemma reachable_inv w : reachable w -> registry_inv (fake_db w).
Proof. intros [t Ht]. apply (run_inv _ _ _ Ht). apply registry_inv_empty. Qed.

Lemma run_app w t w1 t' w2 : run w t w1 -> run w1 t' w2 -> run w (t ++ t') w2.
Proof.
  induction 1 as [|fuel c r w w1 t w3 Hstep _ IH]; [auto|].
  intros H. simpl. econstructor; [exact Hstep | auto].
Qed.

Lemma reachable_run w t w' : reachable w -> run w t w' -> reachable w'.
Proof. intros [t0 H0] H. exists (t0 ++ t). eapply run_app; eassumption. Qed.

Lemma registry_inv_key_field d : registry_inv d -> key_field_agree d.
Proof.
  intros (_ & Hkey & _) c r Hget. apply get_In in Hget.
  rewrite Forall_forall in Hkey. exact (Hkey _ Hget).
Qed.

Lemma registry_inv_stored_codes d :
  registry_inv d -> stored_codes d = PyDict.keys d.
Proof.
  intros (_ & Hkey & _). unfold stored_codes, PyDict.values, PyDict.keys.
  rewrite map_map. apply map_ext_in. intros kr Hin.
  rewrite Forall_forall in Hkey. exact (Hkey _ Hin).
Qed.

(** ** How one record evolves *)

Lemma same_link_refl a : same_link a a.
Proof. now repeat split. Qed.

Lemma same_link_trans a b c : same_link a b -> same_link b c -> same_link a c.
Proof. unfold same_link. intuition congruence. Qed.

Lemma effect_get c r d d' code info :
  effect c r d d' -> PyDict.get code d = Some info ->
  exists info', PyDict.get code d' = Some info' /\ same_link info info' /\
                URLInfo.clicks info' =
                (URLInfo.clicks info + Z.of_nat (redirects_of code [(c, r)]))%Z.
Proof.
  intros Heff Hget.
  destruct Heff as [| uc rq code' id d Hfind Hfree _ | code' info0 d Hget0 | | | |];
    try (exists info; simpl; repeat split; [assumption | lia]).
  - exists info. rewrite get_app, Hget. simpl. repeat split; lia.
  - simpl. destruct (String.eqb_spec code' code) as [->|Hne].
    + exists (URLInfo.incr_clicks info). rewrite get_modify_same, Hget.
      simpl. repeat split; lia.
    + exists info. rewrite get_modify_other by congruence.
      repeat split; [assumption | lia].
Qed.

Lemma run_get w t w' code info :
  run w t w' -> PyDict.get code (fake_db w) = Some info ->
  exists info', PyDict.get code (fake_db w') = Some info' /\ same_link info info' /\
                URLInfo.clicks info' =
                (URLInfo.clicks info + Z.of_nat (redirects_of code t))%Z.
Proof.
  intros Hrun. revert info.
  induction Hrun as [w|fuel c r w w1 t w2 Hstep _ IH]; intros info Hget.
  - exists info. simpl. repeat split; [assumption | lia].
  - apply handle_effect in Hstep.
    destruct (effect_get _ _ _ _ _ _ Hstep Hget) as (info1 & Hget1 & Hsame1 & Hc1).
    destruct (IH _ Hget1) as (info2 & Hget2 & Hsame2 & Hc2).
    exists info2. split; [exact Hget2|]. split; [eapply same_link_trans; eassumption|].
    rewrite Hc2, Hc1.
    assert (Hsplit : redirects_of code ((c, r) :: t) =
                     redirects_of code [(c, r)] + redirects_of code t).
    { simpl. destruct c; try reflexivity. destruct r; try reflexivity. lia. }
    rewrite Hsplit. lia.
Qed.

(** The record a [POST /shorten] answer points to. *)
Lemma effect_shortened_get c r d d' u code :
  effect c r d d' -> PyDict.wf d -> In (u, code) (shortened [(c, r)]) ->
  exists info, PyDict.get code d' = Some info /\ URLInfo.long_url info = u /\
               (PyDict.contains code d = false -> URLInfo.clicks info = 0%Z).
Proof.
  intros Heff Hwf Hin.
  destruct Heff as [uc rq code' d Hfind | uc rq code' id d Hfind Hfree _ | | | | |];
    simpl in Hin; try tauto; destruct Hin as [[= <- <-]|[]].
  - destruct (find_long_url_get _ _ _ Hwf Hfind) as (info & Hget & Hu).
    exists info. repeat split; try assumption.
    intros Hc. apply get_Some_contains in Hget. congruence.
  - eexists. rewrite get_app. apply get_None_contains in Hfree. rewrite Hfree.
    simpl. rewrite String.eqb_refl. repeat split.
Qed.

Lemma shortened_cons x t : shortened (x :: t) = shortened [x] ++ shortened t.
Proof.
  destruct x as [[] []]; reflexivity.
Qed.

Lemma run_shortened_get w t w' u code :
  run w t w' -> registry_inv (fake_db w) -> In (u, code) (shortened t) ->
  exists info, PyDict.get code (fake_db w') = Some info /\ URLInfo.long_url info = u.
Proof.
  induction 1 as [|fuel c r w w1 t w2 Hstep Hrun IH]; intros Hinv Hin; [destruct Hin|].
  pose proof (handle_effect _ _ _ _ _ Hstep) as Heff.
  rewrite shortened_cons in Hin. apply in_app_or in Hin as [Hin|Hin].
  - destruct (effect_shortened_get _ _ _ _ _ _ Heff (proj1 Hinv) Hin)
      as (info & Hget & Hu & _).
    destruct (run_get _ _ _ _ _ Hrun Hget) as (info' & Hget' & (_ & Hu' & _) & _).
    exists info'. split; [exact Hget' | congruence].
  - apply IH; [|exact Hin]. eapply effect_inv; eassumption.
Qed.

(** The key set only grows, and by the codes [POST /shorten] answered. *)
Lemma effect_keys c r d d' code :
  effect c r d d' ->
  (In code (PyDict.keys d') <->
   In code (PyDict.keys d) \/ In code (map snd (shortened [(c, r)]))).
Proof.
  intros Heff.
  destruct Heff as [uc rq code' d Hfind | uc rq code' id d Hfind Hfree _ | | | | |];
    simpl; try tauto.
  - apply find_long_url_Some in Hfind as (info & Hin & _).
    apply (in_map fst) in Hin. simpl in Hin. unfold PyDict.keys.
    split; [tauto | intros [H|[<-|[]]]; assumption].
  - unfold PyDict.keys. rewrite map_app, in_app_iff. simpl. tauto.
  - rewrite keys_modify. tauto.
Qed.

Lemma run_keys w t w' code :
  run w t w' ->
  (In code (PyDict.keys (fake_db w')) <->
   In code (PyDict.keys (fake_db w)) \/ In code (map snd (shortened t))).
Proof.
  induction 1 as [|fuel c r w w1 t w2 Hstep _ IH]; [simpl; tauto|].
  apply handle_effect in Hstep.
  rewrite (shortened_cons (c, r) t), map_app, in_app_iff.
  rewrite IH, (effect_keys _ _ _ _ code Hstep). tauto.
Qed.

(** ** Uniqueness of short codes *)

Lemma NoDup_snd_of_fst {A B} (l : list (A * B)) :
  (forall a a' b, In (a, b) l -> In (a', b) l -> a = a') ->
  NoDup (map fst l) -> NoDup (map snd l).
Proof.
  induction l as [|[a b] l IH]; simpl; intros Hfun Hnd; [constructor|].
  inversion Hnd as [|? ? Hnotin Hnd']; subst. constructor.
  - intros Hb. apply in_map_iff in Hb as ([a' b'] & Hb' & Hin). simpl in Hb'. subst b'.
    apply Hnotin. rewrite (Hfun a a' b); [| now left | now right].
    change a' with (fst (a', b)). now apply in_map.
  - apply IH; [|exact Hnd']. intros x x' y Hx Hx'. apply (Hfun x x' y); now right.
Qed.

(** C1. Served from a reachable state, the [POST /shorten] requests of a
    history whose long URLs are pairwise distinct were answered with
    pairwise distinct short codes; and in the state the history ends in
    no two stored records carry the same short code and no key occurs
    twice. *)
Theorem short_codes_unique w t w' :
  reachable w -> run w t w' ->
  (NoDup (map fst (shortened t)) -> NoDup (map snd (shortened t))) /\
  NoDup (stored_codes (fake_db w')) /\
  PyDict.wf (fake_db w').
Proof.
  intros Hreach Hrun.
  pose proof (reachable_inv _ Hreach) as Hinv.
  pose proof (run_inv _ _ _ Hrun Hinv) as Hinv'.
  split; [|split].
  - apply NoDup_snd_of_fst. intros u u' code Hu Hu'.
    destruct (run_shortened_get _ _ _ _ _ Hrun Hinv Hu) as (info & Hget & <-).
    destruct (run_shortened_get _ _ _ _ _ Hrun Hinv Hu') as (info' & Hget' & <-).
    congruence.
  - rewrite (registry_inv_stored_codes _ Hinv'). apply Hinv'.
  - apply Hinv'.
Qed.

(** ** Deduplication *)

Lemma find_long_url_app u d d' :
  find_long_url u (d ++ d') =
  match find_long_url u d with
  | Some code => Some code
  | None => find_long_url u d'
  end.
Proof.
  induction d as [|[k r] d IH]; simpl; [reflexivity|].
  destruct (String.eqb (URLInfo.long_url r) u); [reflexivity | exact IH].
Qed.

(** After [shorten_url] has answered, the scan finds the answered code. *)
Lemma shorten_url_registers fuel url_create request w resp w1 :
  shorten_url fuel url_create request w = Returned resp w1 ->
  find_long_url (URLCreate.long_url url_create) (fake_db w1) =
  Some (URLShortened.short_code resp).
Proof.
  intros H.
  assert (Hstep : handle fuel (Shorten url_create request) w = Some (Shortened resp, w1))
    by (cbn [handle]; now rewrite H).
  apply handle_effect in Hstep.
  inversion Hstep as [uc rq code d Hfind | uc rq code id d Hfind Hfree _ | | | | |]; subst.
  - exact Hfind.
  - rewrite find_long_url_app, Hfind. simpl. now rewrite String.eqb_refl.
Qed.

Lemma records_for_absent u (l : list URLInfo.t) :
  ~ In u (map URLInfo.long_url l) ->
  length (filter (fun r => String.eqb (URLInfo.long_url r) u) l) = 0.
Proof.
  induction l as [|r l IH]; simpl; [reflexivity|]. intros Hnot.
  destruct (String.eqb_spec (URLInfo.long_url r) u) as [Hu|Hu]; [tauto|].
  apply IH. tauto.
Qed.

Lemma records_for_NoDup u d :
  NoDup (stored_urls d) -> In u (stored_urls d) -> records_for u d = 1.
Proof.
  unfold stored_urls, records_for. generalize (PyDict.values d) as l.
  induction l as [|r l IH]; simpl; [tauto|]. intros Hnd Hin.
  inversion Hnd as [|? ? Hnotin Hnd']; subst.
  destruct (String.eqb_spec (URLInfo.long_url r) u) as [Hu|Hu].
  - simpl. f_equal. apply records_for_absent. now rewrite <- Hu.
  - apply IH; [exact Hnd' | tauto].
Qed.

(** C2. When [shorten_url] has answered for a long URL in a reachable
    state, a second call for the same URL right after it (whatever its
    fuel and base URL) answers with the same short code and leaves the
    whole state as it was: no record is added, no draw is taken from
    either source.  The registry then holds exactly one record with
    that long URL. *)
Theorem shorten_url_idempotent w fuel url_create request resp w1 :
  reachable w ->
  shorten_url fuel url_create request w = Returned resp w1 ->
  forall fuel' request',
  exists resp',
    shorten_url fuel' url_create request' w1 = Returned resp' w1 /\
    URLShortened.short_code resp' = URLShortened.short_code resp /\
    records_for (URLCreate.long_url url_create) (fake_db w1) = 1.
Proof.
  intros Hreach H fuel' request'.
  pose proof (shorten_url_registers _ _ _ _ _ _ H) as Hfind.
  eexists. split; [apply (shorten_url_retrieve _ _ _ _ _ Hfind)|].
  split; [reflexivity|].
  assert (Hinv : registry_inv (fake_db w1)).
  { apply reachable_inv. apply (reachable_run w [(Shorten url_create request, Shortened resp)]);
      [exact Hreach|].
    econstructor; [|constructor]. cbn [handle]. now rewrite H. }
  apply records_for_NoDup; [apply Hinv|].
  destruct (find_long_url (URLCreate.long_url url_create) (fake_db w1)) eqn:Hf;
    [|discriminate].
  destruct (in_dec string_dec (URLCreate.long_url url_create) (stored_urls (fake_db w1)))
    as [Hin|Hnot]; [exact Hin|].
  apply find_long_url_None in Hnot. congruence.
Qed.

(** ** Redirects *)

Lemma redirect_known code w url_info :
  PyDict.get code (fake_db w) = Some url_info ->
  redirect_to_long_url code w =
  Returned (RedirectResponse.init (URLInfo.long_url url_info) HTTP_307_TEMPORARY_REDIRECT)
           (mkWorld (PyDict.modify code URLInfo.incr_clicks (fake_db w))
                    (rand_pos w) (uuid_pos w)).
Proof.
  intros Hget. unfold redirect_to_long_url.
  now rewrite (get_Some_contains _ _ _ Hget), Hget.
Qed.

Lemma stats_known code w url_info :
  PyDict.get code (fake_db w) = Some url_info ->
  get_url_stats code w = Returned url_info w.
Proof.
  intros Hget. unfold get_url_stats.
  now rewrite (get_Some_contains _ _ _ Hget), Hget.
Qed.

(** A string comes out of the quoting of [RedirectResponse] as it went in
    exactly when none of its bytes is replaced. *)
Lemma quote_fixed_iff s :
  PyUrllib.quote s RedirectResponse.safe = s <->
  PyUrllib.unquoted s RedirectResponse.safe = true.
Proof.
  unfold PyUrllib.unquoted.
  induction s as [|b s IH]; cbn [PyUrllib.quote list_ascii_of_string forallb].
  - tauto.
  - unfold PyUrllib.quote_byte.
    destruct (PyUrllib.kept RedirectResponse.safe b) eqn:Hb; cbn [append andb].
    + rewrite <- IH. split; [now intros [= ->] | now intros ->].
    + split; [|discriminate]. unfold PyUrllib.percent. cbn [append].
      intros [= <- _]. discriminate Hb.
Qed.

(** C3 (as the code has it).  When [shorten_url] has answered a long URL
    with a short code in a reachable state, the redirect for that code
    right after it succeeds with status 307, and its target, the
    [location] header, is that long URL as [RedirectResponse] quotes it:
    letters, digits and the characters of [_.-~] and
    [:/%#?=@[]!$&'()*+,;] stay, every other byte is replaced by [%XX].
    The target is the long URL itself exactly when the long URL has no
    byte that is replaced. *)
Theorem redirect_after_shorten w fuel url_create request resp w1 :
  reachable w ->
  shorten_url fuel url_create request w = Returned resp w1 ->
  exists r w2,
    redirect_to_long_url (URLShortened.short_code resp) w1 = Returned r w2 /\
    RedirectResponse.status_code r = HTTP_307_TEMPORARY_REDIRECT /\
    RedirectResponse.location r =
    PyUrllib.quote (URLCreate.long_url url_create) RedirectResponse.safe /\
    (RedirectResponse.location r = URLCreate.long_url url_create <->
     PyUrllib.unquoted (URLCreate.long_url url_create) RedirectResponse.safe = true).
Proof.
  intros Hreach H.
  assert (Hstep : handle fuel (Shorten url_create request) w = Some (Shortened resp, w1))
    by (cbn [handle]; now rewrite H).
  apply handle_effect in Hstep.
  destruct (effect_shortened_get _ _ _ _ (URLCreate.long_url url_create)
              (URLShortened.short_code resp) Hstep)
    as (info & Hget & Hu & _).
  - apply (reachable_inv _ Hreach).
  - simpl. now left.
  - do 2 eexists. rewrite (redirect_known _ _ _ Hget), Hu.
    split; [reflexivity|]. split; [reflexivity|]. split; [reflexivity|].
    apply quote_fixed_iff.
Qed.

(** ** Click counting *)

(** The creation branch stores a record with a zero counter under a key
    that was not there. *)
Lemma shorten_url_fresh fuel url_create request w resp w1 :
  find_long_url (URLCreate.long_url url_create) (fake_db w) = None ->
  shorten_url fuel url_create request w = Returned resp w1 ->
  PyDict.contains (URLShortened.short_code resp) (fake_db w) = false /\
  exists info,
    PyDict.get (URLShortened.short_code resp) (fake_db w1) = Some info /\
    URLInfo.clicks info = 0%Z /\
    URLInfo.long_url info = URLCreate.long_url url_create /\
    URLInfo.short_code info = URLShortened.short_code resp.
Proof.
  intros Hfind H.
  assert (Hstep : handle fuel (Shorten url_create request) w = Some (Shortened resp, w1))
    by (cbn [handle]; now rewrite H).
  apply handle_effect in Hstep.
  inversion Hstep as [uc rq code d Hfind' | uc rq code id d _ Hfree _ | | | | |]; subst.
  - congruence.
  - cbn [URLShortened.short_code].
    split; [exact Hfree|]. eexists. rewrite get_app.
    apply get_None_contains in Hfree. rewrite Hfree. simpl.
    rewrite String.eqb_refl. repeat split.
Qed.

(** C4. A record that [shorten_url] has just created has [clicks = 0].
    After any history [t] served from there, the stats of its short code
    report as many clicks as [t] holds successful redirects of that
    code, whatever else [t] holds; and one more successful redirect
    makes the stats report exactly one more. *)
Theorem click_counting w fuel url_create request resp w1 t w2 :
  find_long_url (URLCreate.long_url url_create) (fake_db w) = None ->
  shorten_url fuel url_create request w = Returned resp w1 ->
  run w1 t w2 ->
  let code := URLShortened.short_code resp in
  (exists info0,
      get_url_stats code w1 = Returned info0 w1 /\ URLInfo.clicks info0 = 0%Z) /\
  exists info,
    get_url_stats code w2 = Returned info w2 /\
    URLInfo.clicks info = Z.of_nat (redirects_of code t) /\
    exists r w3 info',
      redirect_to_long_url code w2 = Returned r w3 /\
      get_url_stats code w3 = Returned info' w3 /\
      URLInfo.clicks info' = (URLInfo.clicks info + 1)%Z.
Proof.
  intros Hfind H Hrun code.
  destruct (shorten_url_fresh _ _ _ _ _ _ Hfind H) as (_ & info0 & Hget0 & Hc0 & _).
  fold code in Hget0.
  split; [exists info0; split; [now apply stats_known | exact Hc0]|].
  destruct (run_get _ _ _ _ _ Hrun Hget0) as (info & Hget & _ & Hc).
  exists info. split; [now apply stats_known|].
  split; [rewrite Hc, Hc0; lia|].
  do 2 eexists. exists (URLInfo.incr_clicks info).
  split; [apply (redirect_known _ _ _ Hget)|].
  split; [|reflexivity].
  apply stats_known. cbn [fake_db]. now rewrite get_modify_same, Hget.
Qed.

(** ** Unknown codes *)

(** C5. For a code that is not a key of the registry both the redirect
    and the stats handler raise the 404 exception; each of the two
    raises at all only for such a code, and then it is that exception;
    [shorten_url] raises nothing. *)
Theorem not_found_iff w code :
  (~ In code (PyDict.keys (fake_db w)) ->
   redirect_to_long_url code w = Raised NotFound w /\
   get_url_stats code w = Raised NotFound w) /\
  (forall e w', redirect_to_long_url code w = Raised e w' ->
                e = NotFound /\ ~ In code (PyDict.keys (fake_db w))) /\
  (forall e w', get_url_stats code w = Raised e w' ->
                e = NotFound /\ ~ In code (PyDict.keys (fake_db w))) /\
  (forall fuel url_create request e w',
      shorten_url fuel url_create request w <> Raised e w').
Proof.
  repeat split.
  - apply contains_false_In in H. unfold redirect_to_long_url. now rewrite H.
  - apply contains_false_In in H. unfold get_url_stats. now rewrite H.
  - revert H. unfold redirect_to_long_url.
    destruct (PyDict.contains code (fake_db w)) eqn:Hc; cbn [negb].
    + destruct (contains_get _ _ Hc) as [v ->]. discriminate.
    + now intros [= <- _].
  - revert H. unfold redirect_to_long_url.
    destruct (PyDict.contains code (fake_db w)) eqn:Hc; cbn [negb].
    + destruct (contains_get _ _ Hc) as [v ->]. discriminate.
    + intros _. now apply contains_false_In.
  - revert H. unfold get_url_stats.
    destruct (PyDict.contains code (fake_db w)) eqn:Hc; cbn [negb].
    + destruct (contains_get _ _ Hc) as [v ->]. discriminate.
    + now intros [= <- _].
  - revert H. unfold get_url_stats.
    destruct (PyDict.contains code (fake_db w)) eqn:Hc; cbn [negb].
    + destruct (contains_get _ _ Hc) as [v ->]. discriminate.
    + intros _. now apply contains_false_In.
  - intros fuel url_create request e w'. apply shorten_url_not_raised.
Qed.

(** ** The generator *)

(** C6. A code returned by [generate_short_code()] (default length 6) has
    exactly 6 characters, each one a member of [characters], which holds
    62 different symbols: the lower-case letters, the upper-case letters
    and the digits.  The code is the candidate of the first turn of the
    loop whose candidate is not a key of the registry, so it is not a
    key when it is returned, and the registry is the one the call
    started with. *)
Theorem generate_short_code_contract fuel w code w' :
  generate_short_code fuel 6 w = Returned code w' ->
  String.length code = 6 /\
  Forall (fun a => In a characters) (list_ascii_of_string code) /\
  (length characters = 62 /\ NoDup characters /\
   characters = list_ascii_of_string
                  (PyString.ascii_lowercase ++ PyString.ascii_uppercase ++
                   PyString.digits)) /\
  ~ In code (PyDict.keys (fake_db w')) /\
  (exists i, first_free 6 (rand_pos w) (fake_db w) i /\
             code = candidate 6 (rand_pos w) i) /\
  fake_db w' = fake_db w.
Proof.
  intros H. apply generate_returned in H as (i & _ & Hff & -> & ->).
  destruct (candidate_shaped (rand_pos w) i) as [Hlen Hall].
  split; [exact Hlen|]. split; [exact Hall|].
  split; [split; [apply characters_length | split; [apply characters_NoDup | reflexivity]]|].
  split; [apply contains_false_In, Hff|].
  split; [exists i; split; [exact Hff | reflexivity] | reflexivity].
Qed.

(** ** Reading the registry *)

(** C7. For a code that is a key of the registry, [get_url_stats] returns
    the record stored under it, all fields as they are, and the state
    after the call is the state before it: no counter, no field, no key
    has changed. *)
Theorem get_url_stats_read_only w code :
  In code (PyDict.keys (fake_db w)) ->
  exists info,
    PyDict.get code (fake_db w) = Some info /\
    get_url_stats code w = Returned info w.
Proof.
  intros Hin. apply contains_In in Hin.
  destruct (contains_get _ _ Hin) as [info Hget].
  exists info. split; [exact Hget | now apply stats_known].
Qed.

(** C8. After any history [t] served from the empty registry,
    [get_all_urls] returns a list with exactly one record for each short
    code that [POST /shorten] answered in [t] and no other record; each
    listed record is the one stored under its code, every answered
    (long URL, code) pair is listed with that long URL, and the call
    leaves the state as it was. *)
Theorem get_all_urls_complete t w :
  run init_world t w ->
  exists l,
    get_all_urls w = Returned l w /\
    NoDup (map URLInfo.short_code l) /\
    (forall code, In code (map URLInfo.short_code l) <->
                  In code (map snd (shortened t))) /\
    (forall info, In info l ->
                  PyDict.get (URLInfo.short_code info) (fake_db w) = Some info) /\
    (forall u code, In (u, code) (shortened t) ->
                    exists info, In info l /\ URLInfo.short_code info = code /\
                                 URLInfo.long_url info = u).
Proof.
  intros Hrun.
  assert (Hinv : registry_inv (fake_db w)) by (apply reachable_inv; now exists t).
  exists (PyDict.values (fake_db w)). split; [reflexivity|].
  fold (stored_codes (fake_db w)). rewrite (registry_inv_stored_codes _ Hinv).
  split; [apply Hinv|]. split; [|split].
  - intros code. rewrite (run_keys _ _ _ code Hrun). simpl. tauto.
  - intros info Hin. unfold PyDict.values in Hin.
    apply in_map_iff in Hin as ([k v] & <- & Hin). simpl.
    destruct Hinv as (Hwf & Hkey & _). rewrite Forall_forall in Hkey.
    pose proof (Hkey _ Hin) as Hk. simpl in Hk. rewrite Hk. now apply In_get.
  - intros u code Hin.
    destruct (run_shortened_get _ _ _ _ _ Hrun registry_inv_empty Hin)
      as (info & Hget & Hu).
    exists info. split; [|split; [|exact Hu]].
    + apply get_In in Hget. unfold PyDict.values.
      change info with (snd (code, info)). now apply in_map.
    + now apply (registry_inv_key_field _ Hinv).
Qed.

(** ** Completion *)

Lemma generate_returns_iff length w :
  (exists fuel code w', generate_short_code fuel length w = Returned code w') <->
  (exists i, PyDict.contains (candidate length (rand_pos w) i) (fake_db w) = false).
Proof.
  split.
  - intros (fuel & code & w' & H).
    apply generate_returned in H as (i & _ & [Hfree _] & _ & _). now exists i.
  - intros (i & Hfree).
    destruct (first_free_or_taken length (rand_pos w) (fake_db w) (S i))
      as [(i0 & Hi0 & Hff)|Hall].
    + exists (S i0). do 2 eexists. apply generate_first_free; [exact Hff | lia].
    + rewrite Hall in Hfree by lia. discriminate.
Qed.

Lemma generate_turns length w i fuel :
  first_free length (rand_pos w) (fake_db w) i ->
  generate_short_code fuel length w =
  if (i <? fuel)%nat
  then Returned (candidate length (rand_pos w) i) (after_turns length (S i) w)
  else OutOfFuel.
Proof.
  intros Hff. destruct (Nat.ltb_spec i fuel) as [Hlt|Hge].
  - now apply generate_first_free.
  - apply generate_all_taken. intros j Hj. apply Hff. lia.
Qed.

(** C9 (as the code has it).  The redirect, listing and stats handlers
    answer for every state and input, and so does [shorten_url] for a
    long URL that is already registered.  A call of the generator
    returns for some amount of fuel exactly when some turn of its loop
    draws a candidate that is not a key of the registry; it then returns
    at the first such turn [i], that is for every fuel above [i] and for
    none up to [i].  [shorten_url] for a new long URL answers exactly
    when the generator returns. *)
Theorem operations_complete w :
  (forall fuel code, exists r w', handle fuel (Redirect code) w = Some (r, w')) /\
  (forall fuel, exists r w', handle fuel ListAll w = Some (r, w')) /\
  (forall fuel code, exists r w', handle fuel (Stats code) w = Some (r, w')) /\
  (forall fuel url_create request,
      find_long_url (URLCreate.long_url url_create) (fake_db w) <> None ->
      exists r w', handle fuel (Shorten url_create request) w = Some (r, w')) /\
  (forall length,
      (exists fuel code w', generate_short_code fuel length w = Returned code w') <->
      (exists i, PyDict.contains (candidate length (rand_pos w) i) (fake_db w) = false)) /\
  (forall length i fuel,
      first_free length (rand_pos w) (fake_db w) i ->
      generate_short_code fuel length w =
      if (i <? fuel)%nat
      then Returned (candidate length (rand_pos w) i) (after_turns length (S i) w)
      else OutOfFuel) /\
  (forall url_create request,
      find_long_url (URLCreate.long_url url_create) (fake_db w) = None ->
      ((exists fuel r w', handle fuel (Shorten url_create request) w = Some (r, w')) <->
       (exists i, PyDict.contains (candidate 6 (rand_pos w) i) (fake_db w) = false))).
Proof.
  split; [|split; [|split; [|split; [|split; [|split]]]]].
  - intros fuel code. cbn [handle].
    destruct (redirect_to_long_url code w) eqn:Hr; cbn [answer]; eauto.
    revert Hr. unfold redirect_to_long_url.
    destruct (negb _); [discriminate|]. destruct (PyDict.get _ _); discriminate.
  - intros fuel. cbn [handle]. unfold get_all_urls. cbn [answer]. eauto.
  - intros fuel code. cbn [handle].
    destruct (get_url_stats code w) eqn:Hs; cbn [answer]; eauto.
    revert Hs. unfold get_url_stats.
    destruct (negb _); [discriminate|]. destruct (PyDict.get _ _); discriminate.
  - intros fuel url_create request Hfind. cbn [handle].
    destruct (find_long_url (URLCreate.long_url url_create) (fake_db w)) as [code|] eqn:Hf;
      [|congruence].
    rewrite (shorten_url_retrieve _ _ _ _ _ Hf). cbn [answer]. eauto.
  - intros length. apply generate_returns_iff.
  - intros length i fuel. apply generate_turns.
  - intros url_create request Hfind.
    rewrite <- generate_returns_iff. cbn [handle].
    split.
    + intros (fuel & r & w' & H). exists fuel.
      rewrite (shorten_url_create _ _ _ _ Hfind) in H.
      destruct (generate_short_code fuel 6 w) eqn:Hg; [eauto | | discriminate].
      now apply generate_not_raised in Hg.
    + intros (fuel & code & w' & H). exists fuel.
      rewrite (shorten_url_create _ _ _ _ Hfind), H. cbn [answer]. eauto.
Qed.

(** ** Keys and [short_code] fields *)

Lemma effect_key_field c r d d' :
  effect c r d d' -> key_field_agree d -> key_field_agree d'.
Proof.
  intros Heff Hagree.
  destruct Heff as [| uc rq code id d Hfind Hfree _ | code info d Hget | | | |];
    try assumption.
  - intros k v. rewrite get_app.
    destruct (PyDict.get k d) as [v'|] eqn:Hk.
    + intros [= <-]. now apply Hagree.
    + simpl. destruct (String.eqb_spec k code) as [->|]; [|discriminate].
      now intros [= <-].
  - intros k v. destruct (String.eqb_spec k code) as [->|Hne].
    + rewrite get_modify_same, Hget. simpl. intros [= <-]. simpl.
      now apply Hagree.
    + rewrite get_modify_other by exact Hne. apply Hagree.
Qed.

(** C10. In the empty registry, and in every state a history leads to from
    it, the record stored under a key has that key as its [short_code];
    and whatever the state, a request served by any of the four handlers
    leaves the property in place when it held before. *)
Theorem key_field_agreement :
  key_field_agree (fake_db init_world) /\
  (forall w, reachable w -> key_field_agree (fake_db w)) /\
  (forall fuel c w r w',
      key_field_agree (fake_db w) ->
      handle fuel c w = Some (r, w') ->
      key_field_agree (fake_db w')).
Proof.
  split; [|split].
  - intros c r. discriminate.
  - intros w Hreach. apply registry_inv_key_field, reachable_inv, Hreach.
  - intros fuel c w r w' Hagree Hstep.
    eapply effect_key_field; [|exact Hagree]. eapply handle_effect; exact Hstep.
Qed.

(** ** Further properties of the module *)

(** One step of [handle] with the cursors of the two sources: nothing
    changes, or one counter goes up, or one record is appended. *)
Lemma handle_world fuel c w r w' :
  handle fuel c w = Some (r, w') ->
  w' = w \/
  (exists code info,
      c = Redirect code /\
      PyDict.get code (fake_db w) = Some info /\
      w' = mkWorld (PyDict.modify code URLInfo.incr_clicks (fake_db w))
                   (rand_pos w) (uuid_pos w)) \/
  (exists url_create request i,
      c = Shorten url_create request /\
      find_long_url (URLCreate.long_url url_create) (fake_db w) = None /\
      first_free 6 (rand_pos w) (fake_db w) i /\
      r = Shortened (URLShortened.mk
                       (URLCreate.long_url url_create)
                       (candidate 6 (rand_pos w) i)
                       (full_short_url request (candidate 6 (rand_pos w) i))) /\
      w' = mkWorld
             (fake_db w ++
              [(candidate 6 (rand_pos w) i,
                URLInfo.mk (uuid_draw E (uuid_pos w))
                           (URLCreate.long_url url_create)
                           (candidate 6 (rand_pos w) i)
                           (full_short_url request (candidate 6 (rand_pos w) i))
                           0)])
             (rand_pos w + S i * 6) (S (uuid_pos w))).
Proof.
  destruct c as [url_create request|code| |code]; cbn [handle].
  - destruct (find_long_url (URLCreate.long_url url_create) (fake_db w))
      as [code|] eqn:Hf.
    + rewrite (shorten_url_retrieve _ _ _ _ _ Hf). intros [= <- <-]. now left.
    + rewrite (shorten_url_create _ _ _ _ Hf).
      destruct (generate_short_code fuel 6 w) as [code w1|e w1|] eqn:Hg;
        cbn [answer]; [| now apply generate_not_raised in Hg | discriminate].
      apply generate_returned in Hg as (i & _ & Hff & -> & ->).
      intros [= <- <-]. right. right. exists url_create, request, i.
      split; [reflexivity|]. split; [exact Hf|]. split; [exact Hff|].
      split; [reflexivity|].
      cbn [fake_db rand_pos uuid_pos after_turns].
      now rewrite (set_fresh _ _ _ (proj1 Hff)).
  - unfold redirect_to_long_url.
    destruct (PyDict.contains code (fake_db w)) eqn:Hc; cbn [negb answer].
    + destruct (contains_get _ _ Hc) as [v Hv]. rewrite Hv. cbn [answer].
      intros [= <- <-]. right. left. now exists code, v.
    + intros [= <- <-]. now left.
  - unfold get_all_urls. cbn [answer]. intros [= <- <-]. now left.
  - unfold get_url_stats.
    destruct (PyDict.contains code (fake_db w)) eqn:Hc; cbn [negb answer].
    + destruct (contains_get _ _ Hc) as [v Hv]. rewrite Hv. cbn [answer].
      intros [= <- <-]. now left.
    + intros [= <- <-]. now left.
Qed.

(** A property of the freshly imported module that every step keeps holds
    in every reachable state. *)
Lemma run_preserves (P : World -> Prop) :
  (forall fuel c w r w', P w -> handle fuel c w = Some (r, w') -> P w') ->
  forall w t w', run w t w' -> P w -> P w'.
Proof.
  intros Hstep w t w'. induction 1 as [|fuel c r w w1 t w2 H _ IH]; [auto|].
  intros HP. apply IH. eapply Hstep; eassumption.
Qed.

Lemma reachable_preserves (P : World -> Prop) :
  P init_world ->
  (forall fuel c w r w', P w -> handle fuel c w = Some (r, w') -> P w') ->
  forall w, reachable w -> P w.
Proof.
  intros H0 Hstep w [t Ht]. exact (run_preserves P Hstep _ _ _ Ht H0).
Qed.

(** X1. In every reachable state the stored long URLs are pairwise
    different: for every long URL there is at most one record. *)
Theorem long_urls_unique w :
  reachable w ->
  NoDup (stored_urls (fake_db w)) /\
  forall u, records_for u (fake_db w) <= 1.
Proof.
  intros Hreach. destruct (reachable_inv _ Hreach) as (_ & _ & Hurls).
  split; [exact Hurls|]. intros u.
  destruct (in_dec string_dec u (stored_urls (fake_db w))) as [Hin|Hnot].
  - now rewrite (records_for_NoDup _ _ Hurls Hin).
  - unfold records_for, stored_urls in *. rewrite (records_for_absent _ _ Hnot). lia.
Qed.

(** X2. No request deletes or rewrites a record: whatever history is
    served, a record stored under a code is still stored under it
    afterwards with the same id, long URL, short code and short URL, and
    its click counter has not gone down. *)
Theorem records_persist w t w' code info :
  run w t w' ->
  PyDict.get code (fake_db w) = Some info ->
  exists info',
    PyDict.get code (fake_db w') = Some info' /\
    same_link info info' /\
    (URLInfo.clicks info <= URLInfo.clicks info')%Z.
Proof.
  intros Hrun Hget.
  destruct (run_get _ _ _ _ _ Hrun Hget) as (info' & Hget' & Hsame & Hclicks).
  exists info'. repeat split; try assumption; try apply Hsame. lia.
Qed.

(** X3. A redirect that fails leaves the state as it was.  A redirect
    that succeeds answers with the [RedirectResponse] built from the
    stored long URL and 307 (its [location] is that URL quoted), adds one
    to the counter of the record under its code and touches nothing else:
    the other records, the keys and their order, and both sources of
    randomness stay as they were. *)
Theorem redirect_frame code w :
  (forall e w', redirect_to_long_url code w = Raised e w' -> w' = w) /\
  (forall r w',
      redirect_to_long_url code w = Returned r w' ->
      exists info,
        PyDict.get code (fake_db w) = Some info /\
        r = RedirectResponse.init (URLInfo.long_url info) HTTP_307_TEMPORARY_REDIRECT /\
        RedirectResponse.location r =
        PyUrllib.quote (URLInfo.long_url info) RedirectResponse.safe /\
        PyDict.get code (fake_db w') = Some (URLInfo.incr_clicks info) /\
        (forall code', code' <> code ->
                       PyDict.get code' (fake_db w') = PyDict.get code' (fake_db w)) /\
        PyDict.keys (fake_db w') = PyDict.keys (fake_db w) /\
        rand_pos w' = rand_pos w /\ uuid_pos w' = uuid_pos w).
Proof.
  unfold redirect_to_long_url.
  destruct (PyDict.contains code (fake_db w)) eqn:Hc; cbn [negb].
  - destruct (contains_get _ _ Hc) as [info Hget]. rewrite Hget.
    split; [discriminate|]. intros r w' [= <- <-]. exists info.
    cbn [fake_db rand_pos uuid_pos].
    split; [reflexivity|]. split; [reflexivity|]. split; [reflexivity|].
    split; [now rewrite get_modify_same, Hget|].
    split; [intros code' Hne; now apply get_modify_other|].
    split; [apply keys_modify | split; reflexivity].
  - split; [now intros e w' [= _ <-] | discriminate].
Qed.

Lemma reachable_codes_shaped w :
  reachable w -> Forall code_shaped (PyDict.keys (fake_db w)).
Proof.
  apply (reachable_preserves (fun w => Forall code_shaped (PyDict.keys (fake_db w)))).
  - constructor.
  - intros fuel c w0 r w' HP Hstep. apply handle_effect in Hstep.
    destruct Hstep as [| uc rq code id d Hfind Hfree Hshape | code info d Hget | | | |];
      try assumption.
    + unfold PyDict.keys. rewrite map_app. apply Forall_app.
      split; [exact HP | simpl; constructor; [exact Hshape | constructor]].
    + now rewrite keys_modify.
Qed.

(** X4. In a reachable state every key is a string of 6 characters of the
    alphabet, so the redirect and the stats of any other string (too
    short, too long, or with a character outside the alphabet) raise the
    404 exception. *)
Theorem ill_shaped_not_found w code :
  reachable w -> ~ code_shaped code ->
  redirect_to_long_url code w = Raised NotFound w /\
  get_url_stats code w = Raised NotFound w.
Proof.
  intros Hreach Hshape.
  assert (Hc : PyDict.contains code (fake_db w) = false).
  { apply contains_false_In. intros Hin.
    pose proof (reachable_codes_shaped _ Hreach) as Hall.
    rewrite Forall_forall in Hall. exact (Hshape (Hall _ Hin)). }
  unfold redirect_to_long_url, get_url_stats. now rewrite Hc.
Qed.

(** X5. When [shorten_url] answers for a long URL that no record has, the
    loop of the generator stopped at some turn [i] below the fuel: the
    registry is the old one with exactly one record appended behind all
    others, so the listing is the old listing followed by that record.
    The record carries the next id of the uuid source, the submitted long
    URL, the answered code and short URL and a zero counter.  The call took
    [6 * (i + 1)] draws from [random.choice] and one from [uuid.uuid4]. *)
Theorem shorten_url_appends fuel url_create request w resp w1 :
  find_long_url (URLCreate.long_url url_create) (fake_db w) = None ->
  shorten_url fuel url_create request w = Returned resp w1 ->
  exists i,
    i < fuel /\ first_free 6 (rand_pos w) (fake_db w) i /\
    URLShortened.short_code resp = candidate 6 (rand_pos w) i /\
    let info := URLInfo.mk (uuid_draw E (uuid_pos w))
                           (URLCreate.long_url url_create)
                           (URLShortened.short_code resp)
                           (URLShortened.short_url resp) 0 in
    fake_db w1 = fake_db w ++ [(URLShortened.short_code resp, info)] /\
    get_all_urls w1 = Returned (PyDict.values (fake_db w) ++ [info]) w1 /\
    rand_pos w1 = rand_pos w + 6 * S i /\
    uuid_pos w1 = S (uuid_pos w).
Proof.
  intros Hfind H. rewrite (shorten_url_create _ _ _ _ Hfind) in H.
  destruct (generate_short_code fuel 6 w) as [code w0|e w0|] eqn:Hg;
    [| discriminate | discriminate].
  apply generate_returned in Hg as (i & Hi & Hff & -> & ->).
  injection H as <- <-. exists i.
  cbn [URLShortened.short_code URLShortened.short_url fake_db rand_pos uuid_pos
       after_turns].
  rewrite (set_fresh _ _ _ (proj1 Hff)).
  split; [exact Hi|]. split; [exact Hff|]. split; [reflexivity|].
  split; [reflexivity|].
  split; [| split; [change (Z.to_nat 6) with 6; lia | reflexivity]].
  unfold get_all_urls, PyDict.values. cbn [fake_db]. now rewrite map_app.
Qed.

Lemma NoDup_map_injective {A B} (f : A -> B) (l : list A) :
  (forall x y, f x = f y -> x = y) -> NoDup l -> NoDup (map f l).
Proof.
  intros Hinj. induction 1 as [|x l Hnotin _ IH]; simpl; constructor; [|exact IH].
  intros Hin. apply in_map_iff in Hin as (y & Hy & Hin).
  apply Hinj in Hy. now subst.
Qed.

(** X6. In a reachable state the ids of the records are, in storage order,
    the first values the uuid source handed out, one per record; so the
    ids are pairwise different as soon as the source never repeats a
    value. *)
Theorem record_ids w :
  reachable w ->
  stored_ids (fake_db w) = map (uuid_draw E) (seq 0 (uuid_pos w)) /\
  uuid_pos w = length (fake_db w) /\
  ((forall i j, uuid_draw E i = uuid_draw E j -> i = j) ->
   NoDup (stored_ids (fake_db w))).
Proof.
  intros Hreach.
  assert (Hids : stored_ids (fake_db w) = map (uuid_draw E) (seq 0 (uuid_pos w))).
  { revert w Hreach. apply reachable_preserves; [reflexivity|].
    intros fuel c w r w' HP Hstep.
    destruct (handle_world _ _ _ _ _ Hstep)
      as [-> | [(code & info & _ & _ & ->) | (uc & rq & i & _ & _ & _ & _ & ->)]].
    - exact HP.
    - cbn [fake_db uuid_pos]. unfold stored_ids in *.
      rewrite values_modify_map; [exact HP | now intros []].
    - cbn [fake_db uuid_pos]. unfold stored_ids, PyDict.values in *.
      rewrite !map_app, seq_S, map_app, HP. reflexivity. }
  split; [exact Hids|]. split.
  - apply (f_equal (@length string)) in Hids.
    unfold stored_ids, PyDict.values in Hids.
    rewrite !length_map, length_seq in Hids. now symmetry.
  - intros Hinj. rewrite Hids. apply NoDup_map_injective; [exact Hinj|].
    apply seq_NoDup.
Qed.

Lemma candidate_chars length p i :
  String.length (candidate length p i) = Z.to_nat length /\
  Forall (fun a => In a characters) (list_ascii_of_string (candidate length p i)).
Proof.
  unfold candidate. split.
  - now rewrite join_length, drawn_length.
  - unfold PyString.join. rewrite list_ascii_of_string_of_list_ascii. apply drawn_In.
Qed.

(** X7. Whatever [length] it is called with, a code returned by
    [generate_short_code] has [max(length, 0)] characters, all from the
    alphabet, and is not a key of the registry; the registry and the uuid
    source are untouched, and [length] draws of [random.choice] were taken
    for each turn of the loop. *)
Theorem generate_short_code_any_length fuel length w code w' :
  generate_short_code fuel length w = Returned code w' ->
  String.length code = Z.to_nat length /\
  Forall (fun a => In a characters) (list_ascii_of_string code) /\
  ~ In code (PyDict.keys (fake_db w')) /\
  fake_db w' = fake_db w /\
  uuid_pos w' = uuid_pos w /\
  exists i, i < fuel /\ rand_pos w' = rand_pos w + S i * Z.to_nat length.
Proof.
  intros H. apply generate_returned in H as (i & Hi & Hff & -> & ->).
  destruct (candidate_chars length (rand_pos w) i) as [Hlen Hall].
  split; [exact Hlen|]. split; [exact Hall|].
  split; [apply contains_false_In, Hff|].
  split; [reflexivity|]. split; [reflexivity|].
  exists i. split; [exact Hi | reflexivity].
Qed.

(** X8. Called with a [length] of zero or less the generator draws nothing:
    its only candidate is the empty string.  It returns the empty string
    at its first turn, with the state untouched, when the empty string is
    not a key; when it is a key the loop never ends. *)
Theorem generate_short_code_nonpositive fuel length w :
  (length <= 0)%Z ->
  (PyDict.contains "" (fake_db w) = false ->
   generate_short_code (S fuel) length w = Returned "" w) /\
  (PyDict.contains "" (fake_db w) = true ->
   generate_short_code fuel length w = OutOfFuel).
Proof.
  intros Hlen.
  assert (Hn : Z.to_nat length = 0) by lia.
  assert (Hcand : forall p i, candidate length p i = "").
  { intros p i. unfold candidate. now rewrite Hn. }
  split; intros Hc.
  - rewrite generate_step, Hcand, Hc. cbn [negb].
    unfold after_turns. rewrite Hn, Nat.mul_0_r, Nat.add_0_r. now destruct w.
  - apply generate_all_taken. intros j _. now rewrite Hcand.
Qed.

Lemma last_char_cons a s :
  s <> EmptyString -> last_char (String a s) = last_char s.
Proof.
  destruct s as [|b s]; [congruence|]. intros _.
  cbn [last_char]. destruct (last_char s); reflexivity.
Qed.

(** What [rstrip] removes is a run of the character, and what it leaves
    does not end with it. *)
Lemma rstrip_spec c s :
  (exists n, s = (PyString.rstrip c s ++ run_of c n)%string) /\
  last_char (PyString.rstrip c s) <> Some c.
Proof.
  induction s as [|a s [(n & Hs) Hlast]]; simpl.
  - split; [now exists 0 | discriminate].
  - destruct (PyString.rstrip c s) as [|b t] eqn:Hr.
    + destruct (Ascii.eqb_spec a c) as [->|Hne].
      * split; [|discriminate]. exists (S n). simpl in Hs. now rewrite Hs at 1.
      * split; [exists n; simpl in *; now f_equal|].
        simpl. congruence.
    + split; [exists n; simpl in *; now f_equal|].
      rewrite last_char_cons by discriminate. exact Hlast.
Qed.

(** X9. Every answer of [shorten_url], for a new or a registered long URL,
    echoes the submitted long URL, and its short URL is the base URL of
    the request it answers, without the slashes that base URL ends with,
    followed by one slash and the short code.  When the call creates the
    record, that short URL is the one stored in it. *)
Theorem shorten_url_short_url fuel url_create request w resp w1 :
  shorten_url fuel url_create request w = Returned resp w1 ->
  URLShortened.long_url resp = URLCreate.long_url url_create /\
  (exists base n,
      Request.base_url request = (base ++ run_of "/" n)%string /\
      last_char base <> Some "/"%char /\
      URLShortened.short_url resp =
      (base ++ "/" ++ URLShortened.short_code resp)%string) /\
  (find_long_url (URLCreate.long_url url_create) (fake_db w) = None ->
   exists info,
     PyDict.get (URLShortened.short_code resp) (fake_db w1) = Some info /\
     URLInfo.short_url info = URLShortened.short_url resp).
Proof.
  intros H.
  assert (Hresp : resp = URLShortened.mk (URLCreate.long_url url_create)
                           (URLShortened.short_code resp)
                           (full_short_url request (URLShortened.short_code resp))).
  { destruct (find_long_url (URLCreate.long_url url_create) (fake_db w))
      as [code|] eqn:Hf.
    - rewrite (shorten_url_retrieve _ _ _ _ _ Hf) in H. now injection H as <- _.
    - rewrite (shorten_url_create _ _ _ _ Hf) in H.
      destruct (generate_short_code fuel 6 w); try discriminate.
      now injection H as <- _. }
  split; [now rewrite Hresp|]. split.
  - destruct (rstrip_spec "/" (Request.base_url request)) as [(n & Hbase) Hlast].
    exists (PyString.rstrip "/" (Request.base_url request)), n.
    split; [exact Hbase|]. split; [exact Hlast|]. now rewrite Hresp at 1.
  - intros Hfind.
    destruct (shorten_url_appends _ _ _ _ _ _ Hfind H) as (i & _ & Hff & _ & Hdb & _).
    eexists. rewrite Hdb, get_app.
    rewrite (proj2 (get_None_contains _ _)).
    + simpl. rewrite String.eqb_refl. split; reflexivity.
    + destruct Hff as [Hfree _].
      destruct (shorten_url_fresh _ _ _ _ _ _ Hfind H) as [Hc _]. exact Hc.
Qed.

Lemma effect_urls c r d d' u :
  effect c r d d' ->
  (In u (stored_urls d') <->
   In u (stored_urls d) \/ In u (map fst (shortened [(c, r)]))).
Proof.
  intros Heff.
  destruct Heff as [uc rq code d Hfind | uc rq code id d Hfind Hfree _ | code info d Hget | | | |];
    simpl; try tauto.
  - assert (Hin : In (URLCreate.long_url uc) (stored_urls d)).
    { destruct (in_dec string_dec (URLCreate.long_url uc) (stored_urls d)) as [H|H];
        [exact H|]. apply find_long_url_None in H. congruence. }
    split; [tauto | intros [H|[<-|[]]]; assumption].
  - unfold stored_urls, PyDict.values. rewrite !map_app, in_app_iff. simpl. tauto.
  - unfold stored_urls. rewrite values_modify_map; [tauto | now intros []].
Qed.

(** X10. After any history the registry holds the long URLs it held before
    and those submitted to [POST /shorten] in the history, and no other:
    started empty, it holds exactly the submitted long URLs. *)
Theorem stored_urls_submitted w t w' u :
  run w t w' ->
  (In u (stored_urls (fake_db w')) <->
   In u (stored_urls (fake_db w)) \/ In u (map fst (shortened t))).
Proof.
  induction 1 as [|fuel c r w w1 t w2 Hstep _ IH]; [simpl; tauto|].
  apply handle_effect in Hstep.
  rewrite (shortened_cons (c, r) t), map_app, in_app_iff.
  rewrite IH, (effect_urls _ _ _ _ u Hstep). tauto.
Qed.

Lemma NoDup_map_In_inj {A B} (f : A -> B) (l : list A) x y :
  NoDup (map f l) -> In x l -> In y l -> f x = f y -> x = y.
Proof.
  induction l as [|a l IH]; simpl; [tauto|].
  intros Hnd Hx Hy Hf. inversion Hnd as [|? ? Hnotin Hnd']; subst.
  destruct Hx as [->|Hx], Hy as [->|Hy]; auto.
  - exfalso. apply Hnotin. rewrite Hf. now apply in_map.
  - exfalso. apply Hnotin. rewrite <- Hf. now apply in_map.
Qed.

Lemma registry_inv_url_code d code code' info info' :
  registry_inv d ->
  PyDict.get code d = Some info -> PyDict.get code' d = Some info' ->
  URLInfo.long_url info = URLInfo.long_url info' -> code = code'.
Proof.
  intros (_ & _ & Hurls) Hget Hget' Hu.
  apply get_In in Hget. apply get_In in Hget'.
  unfold stored_urls, PyDict.values in Hurls. rewrite map_map in Hurls.
  assert (Heq : (code, info) = (code', info'))
    by (apply (NoDup_map_In_inj _ _ _ _ Hurls Hget Hget'); exact Hu).
  congruence.
Qed.

(** X11. Served from a reachable state, a history answers one long URL with
    one short code: two [POST /shorten] answers for the same long URL
    carry the same code, whatever was served between them. *)
Theorem shorten_url_stable w t w' u code code' :
  reachable w -> run w t w' ->
  In (u, code) (shortened t) -> In (u, code') (shortened t) ->
  code = code'.
Proof.
  intros Hreach Hrun Hin Hin'.
  pose proof (reachable_inv _ Hreach) as Hinv.
  destruct (run_shortened_get _ _ _ _ _ Hrun Hinv Hin) as (info & Hget & Hu).
  destruct (run_shortened_get _ _ _ _ _ Hrun Hinv Hin') as (info' & Hget' & Hu').
  apply (registry_inv_url_code _ _ _ _ _ (run_inv _ _ _ Hrun Hinv) Hget Hget').
  congruence.
Qed.

(** X12. A short code never expires: served from a reachable state, after
    the whole history every code that [POST /shorten] answered in it
    still redirects: the answer is the [RedirectResponse] built from the
    long URL the code was answered for and 307, so its [location] is that
    long URL quoted, and the stats of the code show that long URL. *)
Theorem issued_codes_redirect w t w' u code :
  reachable w -> run w t w' ->
  In (u, code) (shortened t) ->
  (exists r w2,
      redirect_to_long_url code w' = Returned r w2 /\
      r = RedirectResponse.init u HTTP_307_TEMPORARY_REDIRECT /\
      RedirectResponse.location r = PyUrllib.quote u RedirectResponse.safe) /\
  (exists info,
      get_url_stats code w' = Returned info w' /\ URLInfo.long_url info = u).
Proof.
  intros Hreach Hrun Hin.
  destruct (run_shortened_get _ _ _ _ _ Hrun (reachable_inv _ Hreach) Hin)
    as (info & Hget & Hu).
  split.
  - do 2 eexists. rewrite (redirect_known _ _ _ Hget), Hu.
    split; [reflexivity|]. split; reflexivity.
  - exists info. split; [now apply stats_known | exact Hu].
Qed.

Lemma redirects_of_cons code x t :
  redirects_of code (x :: t) = redirects_of code [x] + redirects_of code t.
Proof.
  destruct x as [c r]. simpl.
  destruct c; try reflexivity. destruct r; try reflexivity. lia.
Qed.

(** The counter of one record over one step, also when the step creates
    the record. *)
Lemma effect_clicks c r d d' code info' :
  effect c r d d' -> PyDict.get code d' = Some info' ->
  match PyDict.get code d with
  | Some info =>
      URLInfo.clicks info' =
      (URLInfo.clicks info + Z.of_nat (redirects_of code [(c, r)]))%Z
  | None =>
      URLInfo.clicks info' = 0%Z /\ redirects_of code [(c, r)] = 0
  end.
Proof.
  intros Heff Hget'.
  destruct (PyDict.get code d) as [info|] eqn:Hget.
  - destruct (effect_get _ _ _ _ _ _ Heff Hget) as (info1 & Hget1 & _ & Hc).
    congruence.
  - destruct Heff as [| uc rq code0 id d Hfind Hfree _ | code0 info0 d Hget0 | | | |];
      try congruence.
    + rewrite get_app, Hget in Hget'. simpl in Hget'.
      destruct (String.eqb code code0); [|discriminate].
      injection Hget' as <-. now split.
    + destruct (String.eqb_spec code0 code) as [->|Hne]; [congruence|].
      rewrite get_modify_other in Hget' by congruence. congruence.
Qed.

Lemma effect_get_None c r d d' code :
  effect c r d d' -> PyDict.get code d' = None ->
  PyDict.get code d = None /\ redirects_of code [(c, r)] = 0.
Proof.
  intros Heff Hnone.
  destruct (PyDict.get code d) as [info|] eqn:Hget.
  - destruct (effect_get _ _ _ _ _ _ Heff Hget) as (info1 & Hget1 & _). congruence.
  - split; [reflexivity|].
    destruct Heff as [| | code0 info0 d Hget0 | | | |]; try reflexivity.
    simpl. destruct (String.eqb_spec code0 code) as [->|Hne]; [congruence | reflexivity].
Qed.

Lemma run_clicks w t w' code info' :
  run w t w' -> PyDict.get code (fake_db w') = Some info' ->
  match PyDict.get code (fake_db w) with
  | Some info =>
      URLInfo.clicks info' =
      (URLInfo.clicks info + Z.of_nat (redirects_of code t))%Z
  | None => URLInfo.clicks info' = Z.of_nat (redirects_of code t)
  end.
Proof.
  induction 1 as [w|fuel c r w w1 t w2 Hstep _ IH]; intros Hget'.
  - rewrite Hget'. simpl. lia.
  - apply handle_effect in Hstep. specialize (IH Hget').
    rewrite redirects_of_cons.
    destruct (PyDict.get code (fake_db w1)) as [info1|] eqn:Hget1.
    + pose proof (effect_clicks _ _ _ _ _ _ Hstep Hget1) as Hc.
      destruct (PyDict.get code (fake_db w)) as [info|]; [lia|].
      destruct Hc as [Hc0 Hr0]. rewrite Hr0. lia.
    + destruct (effect_get_None _ _ _ _ _ Hstep Hget1) as [-> ->]. exact IH.
Qed.

(** X13. The counter of every record is the number of successful redirects
    of its code since the module was imported: after any history from the
    empty registry, a stored record has as many clicks as the history
    holds redirects of its code that were answered with a redirect. *)
Theorem clicks_count_redirects t w code info :
  run init_world t w ->
  PyDict.get code (fake_db w) = Some info ->
  URLInfo.clicks info = Z.of_nat (redirects_of code t).
Proof.
  intros Hrun Hget. exact (run_clicks _ _ _ _ _ Hrun Hget).
Qed.

Lemma total_clicks_app d d' :
  total_clicks (d ++ d') = (total_clicks d + total_clicks d')%Z.
Proof.
  unfold total_clicks, PyDict.values.
  induction d as [|[k v] d IH]; simpl; [lia|]. rewrite IH. lia.
Qed.

Lemma total_clicks_modify code d info :
  PyDict.get code d = Some info ->
  total_clicks (PyDict.modify code URLInfo.incr_clicks d) = (total_clicks d + 1)%Z.
Proof.
  unfold total_clicks, PyDict.values.
  induction d as [|[k v] d IH]; simpl; [discriminate|].
  destruct (String.eqb code k); simpl.
  - intros _. lia.
  - intros H. rewrite (IH H). lia.
Qed.

(** X14. Over any history the sum of all click counters grows by the number
    of redirects that were answered with a redirect; requests of the other
    three kinds and failed redirects add nothing. *)
Theorem total_clicks_count w t w' :
  run w t w' ->
  total_clicks (fake_db w') =
  (total_clicks (fake_db w) + Z.of_nat (successful_redirects t))%Z.
Proof.
  induction 1 as [w|fuel c r w w1 t w2 Hstep _ IH]; [simpl; lia|].
  apply handle_effect in Hstep. rewrite IH.
  destruct Hstep as [| uc rq code id d Hfind Hfree _ | code info d Hget | | | |];
    cbn [successful_redirects]; try lia.
  - rewrite total_clicks_app. unfold total_clicks at 2. simpl. lia.
  - rewrite (total_clicks_modify _ _ _ Hget). lia.
Qed.

Lemma existsb_eqb_In code (keys : list string) :
  existsb (String.eqb code) keys = true <-> In code keys.
Proof.
  rewrite existsb_exists. split.
  - intros (x & Hin & Heq). apply String.eqb_eq in Heq. now subst.
  - intros Hin. exists code. split; [exact Hin | apply String.eqb_refl].
Qed.

Lemma effect_issue_order c r d d' :
  effect c r d d' -> PyDict.keys d' = issue_order (PyDict.keys d) [(c, r)].
Proof.
  intros Heff. unfold issue_order.
  destruct Heff as [uc rq code d Hfind | uc rq code id d Hfind Hfree _ | code info d Hget | | | |];
    simpl; try reflexivity.
  - unfold add_key. apply find_long_url_Some in Hfind as (info & Hin & _).
    apply (in_map fst) in Hin. simpl in Hin.
    now rewrite (proj2 (existsb_eqb_In code (PyDict.keys d)) Hin).
  - unfold add_key. apply contains_false_In in Hfree.
    destruct (existsb (String.eqb code) (PyDict.keys d)) eqn:Hex.
    + apply existsb_eqb_In in Hex. tauto.
    + unfold PyDict.keys. now rewrite map_app.
  - apply keys_modify.
Qed.

Lemma run_issue_order w t w' :
  run w t w' ->
  PyDict.keys (fake_db w') = issue_order (PyDict.keys (fake_db w)) t.
Proof.
  induction 1 as [w|fuel c r w w1 t w2 Hstep _ IH]; [reflexivity|].
  apply handle_effect, effect_issue_order in Hstep.
  rewrite IH, Hstep. unfold issue_order.
  now rewrite (shortened_cons (c, r) t), map_app, fold_left_app.
Qed.

(** X15. The listing is in order of first issue: after any history from
    the empty registry the short codes of the records [get_all_urls]
    returns are, in this order, the codes [POST /shorten] answered in the
    history, each one at the place of its first answer and only there. *)
Theorem listing_in_issue_order t w :
  run init_world t w ->
  exists l,
    get_all_urls w = Returned l w /\
    map URLInfo.short_code l = issue_order [] t.
Proof.
  intros Hrun. exists (PyDict.values (fake_db w)). split; [reflexivity|].
  assert (Hinv : registry_inv (fake_db w)) by (apply reachable_inv; now exists t).
  fold (stored_codes (fake_db w)).
  rewrite (registry_inv_stored_codes _ Hinv). exact (run_issue_order _ _ _ Hrun).
Qed.

End Handlers.

(** ** The handlers on the sample data *)

Lemma init_reachable E : reachable E init_world.
Proof. exists []. constructor. Qed.

Lemma demo_run_ab : run Demo.counting init_world Demo.history_ab Demo.world_ab.
Proof.
  apply (run_cons Demo.counting 1 _ _ _ Demo.world_a); [reflexivity|].
  apply (run_cons Demo.counting 1 _ _ _ Demo.world_ab); [reflexivity|].
  constructor.
Qed.

Lemma demo_run_clicks :
  run Demo.counting Demo.world_a Demo.history_clicks Demo.world_a2.
Proof.
  apply (run_cons Demo.counting 0 _ _ _ (mkWorld [("abcdef", Demo.info_a "abcdef" 1)] 6 1));
    [reflexivity|].
  apply (run_cons Demo.counting 0 _ _ _ (mkWorld [("abcdef", Demo.info_a "abcdef" 1)] 6 1));
    [reflexivity|].
  apply (run_cons Demo.counting 0 _ _ _ Demo.world_a2); [reflexivity|].
  constructor.
Qed.

(** Two URLs shortened one after the other under [Demo.counting] get the
    codes [abcdef] and [ghijkl]. *)
Lemma short_codes_unique_witness :
  reachable Demo.counting init_world /\
  run Demo.counting init_world Demo.history_ab Demo.world_ab /\
  NoDup ["https://example.com/a"; "https://example.com/b"] /\
  NoDup ["abcdef"; "ghijkl"] /\
  NoDup (stored_codes (fake_db Demo.world_ab)).
Proof.
  pose proof (init_reachable Demo.counting) as Hreach.
  pose proof demo_run_ab as Hrun.
  assert (Hurls : NoDup ["https://example.com/a"; "https://example.com/b"]).
  { repeat constructor; simpl; intuition discriminate. }
  destruct (short_codes_unique Demo.counting _ _ _ Hreach Hrun) as (Hcodes & Hstored & _).
  split; [exact Hreach|]. split; [exact Hrun|]. split; [exact Hurls|].
  split; [exact (Hcodes Hurls) | exact Hstored].
Defined.

(** Shortening [url_a] again in [Demo.world_a] needs no fuel, answers
    [abcdef] again and stays in [Demo.world_a]. *)
Lemma shorten_url_idempotent_witness :
  reachable Demo.counting init_world /\
  shorten_url Demo.counting 1 Demo.url_a Demo.localhost init_world =
  Returned (Demo.shortened_a "abcdef") Demo.world_a /\
  exists resp',
    shorten_url Demo.counting 0 Demo.url_a (Request.mk "https://sho.rt")
                Demo.world_a = Returned resp' Demo.world_a /\
    URLShortened.short_code resp' = "abcdef" /\
    records_for "https://example.com/a" (fake_db Demo.world_a) = 1.
Proof.
  split; [apply init_reachable|]. split; [reflexivity|].
  apply (shorten_url_idempotent Demo.counting init_world 1 Demo.url_a Demo.localhost
           (Demo.shortened_a "abcdef") Demo.world_a).
  - apply init_reachable.
  - reflexivity.
Defined.

(** The redirect of [abcdef] in [Demo.world_a] goes to [url_a], which has
    no character that is quoted. *)
Lemma redirect_after_shorten_witness :
  reachable Demo.counting init_world /\
  shorten_url Demo.counting 1 Demo.url_a Demo.localhost init_world =
  Returned (Demo.shortened_a "abcdef") Demo.world_a /\
  exists r w2,
    redirect_to_long_url "abcdef" Demo.world_a = Returned r w2 /\
    RedirectResponse.status_code r = 307%Z /\
    RedirectResponse.location r = "https://example.com/a" /\
    (RedirectResponse.location r = "https://example.com/a" <-> true = true).
Proof.
  split; [apply init_reachable|]. split; [reflexivity|].
  exact (redirect_after_shorten Demo.counting init_world 1 Demo.url_a Demo.localhost
           (Demo.shortened_a "abcdef") Demo.world_a
           (init_reachable Demo.counting) eq_refl).
Defined.

(** C3, as stated, fails.  The long URL [https://example.com/?q=a|b] is
    shortened to [abcdef] in the empty registry; the redirect of [abcdef]
    right after it succeeds, but its target is
    [https://example.com/?q=a%7Cb], not the submitted long URL. *)
Lemma redirect_target_counterexample :
  reachable Demo.counting init_world /\
  shorten_url Demo.counting 1 Demo.url_pipe Demo.localhost init_world =
  Returned Demo.shortened_pipe Demo.world_pipe /\
  exists r w2,
    redirect_to_long_url (URLShortened.short_code Demo.shortened_pipe)
                         Demo.world_pipe = Returned r w2 /\
    RedirectResponse.location r = "https://example.com/?q=a%7Cb" /\
    RedirectResponse.location r <> URLCreate.long_url Demo.url_pipe.
Proof.
  split; [apply init_reachable|]. split; [reflexivity|].
  do 2 eexists. split; [reflexivity|]. split; [reflexivity|].
  cbn. discriminate.
Qed.

(** Two redirects of [abcdef] with a failing stats request in between:
    the stats of [abcdef] report 2 clicks, and 3 after one more redirect. *)
Lemma click_counting_witness :
  find_long_url "https://example.com/a" (fake_db init_world) = None /\
  run Demo.counting Demo.world_a Demo.history_clicks Demo.world_a2 /\
  (exists info0,
      get_url_stats "abcdef" Demo.world_a = Returned info0 Demo.world_a /\
      URLInfo.clicks info0 = 0%Z) /\
  exists info,
    get_url_stats "abcdef" Demo.world_a2 = Returned info Demo.world_a2 /\
    URLInfo.clicks info = 2%Z /\
    exists r w3 info',
      redirect_to_long_url "abcdef" Demo.world_a2 = Returned r w3 /\
      get_url_stats "abcdef" w3 = Returned info' w3 /\
      URLInfo.clicks info' = (URLInfo.clicks info + 1)%Z.
Proof.
  split; [reflexivity|]. split; [apply demo_run_clicks|].
  apply (click_counting Demo.counting init_world 1 Demo.url_a Demo.localhost
           (Demo.shortened_a "abcdef") Demo.world_a Demo.history_clicks Demo.world_a2).
  - reflexivity.
  - reflexivity.
  - apply demo_run_clicks.
Defined.

(** [zzzzzz] was never issued in [Demo.world_a]. *)
Lemma not_found_iff_witness :
  ~ In "zzzzzz" (PyDict.keys (fake_db Demo.world_a)) /\
  redirect_to_long_url "zzzzzz" Demo.world_a = Raised NotFound Demo.world_a /\
  get_url_stats "zzzzzz" Demo.world_a = Raised NotFound Demo.world_a.
Proof.
  assert (Habsent : ~ In "zzzzzz" (PyDict.keys (fake_db Demo.world_a))).
  { simpl. intuition discriminate. }
  split; [exact Habsent|].
  exact (proj1 (not_found_iff Demo.counting Demo.world_a "zzzzzz") Habsent).
Defined.

(** With [abcdef] taken and the source at its start, the first candidate
    collides and the second turn returns [ghijkl]. *)
Lemma generate_short_code_contract_witness :
  generate_short_code Demo.counting 2 6 (mkWorld (fake_db Demo.world_a) 0 1) =
  Returned "ghijkl" (mkWorld (fake_db Demo.world_a) 12 1) /\
  String.length "ghijkl" = 6 /\
  ~ In "ghijkl" (PyDict.keys (fake_db Demo.world_a)).
Proof.
  split; [reflexivity|].
  destruct (generate_short_code_contract Demo.counting 2
              (mkWorld (fake_db Demo.world_a) 0 1) "ghijkl"
              (mkWorld (fake_db Demo.world_a) 12 1) eq_refl)
    as (Hlen & _ & _ & Hfresh & _).
  split; [exact Hlen | exact Hfresh].
Defined.

(** The stats of [abcdef] in [Demo.world_a2]. *)
Lemma get_url_stats_read_only_witness :
  In "abcdef" (PyDict.keys (fake_db Demo.world_a2)) /\
  exists info,
    PyDict.get "abcdef" (fake_db Demo.world_a2) = Some info /\
    get_url_stats "abcdef" Demo.world_a2 = Returned info Demo.world_a2.
Proof.
  assert (Hin : In "abcdef" (PyDict.keys (fake_db Demo.world_a2))) by (simpl; auto).
  split; [exact Hin|].
  exact (get_url_stats_read_only Demo.world_a2 "abcdef" Hin).
Defined.

(** The listing after [Demo.history_ab]. *)
Lemma get_all_urls_complete_witness :
  run Demo.counting init_world Demo.history_ab Demo.world_ab /\
  exists l,
    get_all_urls Demo.world_ab = Returned l Demo.world_ab /\
    NoDup (map URLInfo.short_code l) /\
    (forall code, In code (map URLInfo.short_code l) <-> In code ["abcdef"; "ghijkl"]) /\
    (forall info, In info l ->
                  PyDict.get (URLInfo.short_code info) (fake_db Demo.world_ab) = Some info) /\
    (forall u code, In (u, code) (shortened Demo.history_ab) ->
                    exists info, In info l /\ URLInfo.short_code info = code /\
                                 URLInfo.long_url info = u).
Proof.
  split; [apply demo_run_ab|].
  exact (get_all_urls_complete Demo.counting Demo.history_ab Demo.world_ab demo_run_ab).
Defined.

(** With [abcdef] taken and the source at its start the first free turn is
    turn 1: two units of fuel are enough, one is not. *)
Lemma operations_complete_witness :
  first_free Demo.counting 6 0 (fake_db Demo.world_a) 1 /\
  generate_short_code Demo.counting 2 6 (mkWorld (fake_db Demo.world_a) 0 1) =
  Returned "ghijkl" (mkWorld (fake_db Demo.world_a) 12 1) /\
  generate_short_code Demo.counting 1 6 (mkWorld (fake_db Demo.world_a) 0 1) =
  OutOfFuel.
Proof.
  assert (Hff : first_free Demo.counting 6 0 (fake_db Demo.world_a) 1).
  { split; [reflexivity|]. intros j Hj. assert (j = 0) as -> by lia. reflexivity. }
  destruct (operations_complete Demo.counting (mkWorld (fake_db Demo.world_a) 0 1))
    as (_ & _ & _ & _ & _ & Hturns & _).
  split; [exact Hff|]. split.
  - exact (Hturns 6%Z 1 2 Hff).
  - exact (Hturns 6%Z 1 1 Hff).
Defined.

Lemma stuck_candidate p i : candidate Demo.stuck 6 p i = "aaaaaa".
Proof. reflexivity. Qed.

Lemma stuck_generate fuel w :
  fake_db w = fake_db Demo.stuck_world ->
  generate_short_code Demo.stuck fuel 6 w = OutOfFuel.
Proof.
  intros Hdb. apply generate_all_taken. intros j _.
  rewrite stuck_candidate, Hdb. reflexivity.
Qed.

(** C9, as stated, fails.  Under the source [Demo.stuck] the state
    [Demo.stuck_world] is reachable (shorten one URL) and holds the single
    code [aaaaaa], so nearly all of the 62^6 codes are free, [aaaaab]
    among them; yet every candidate drawn is [aaaaaa] again: for no
    amount of fuel does the generator return, nor [shorten_url] for a new
    URL. *)
Lemma retry_loop_counterexample :
  reachable Demo.stuck Demo.stuck_world /\
  (code_shaped "aaaaab" /\
   ~ In "aaaaab" (PyDict.keys (fake_db Demo.stuck_world))) /\
  forall fuel,
    generate_short_code Demo.stuck fuel 6 Demo.stuck_world = OutOfFuel /\
    handle Demo.stuck fuel (Shorten Demo.url_b Demo.localhost) Demo.stuck_world = None.
Proof.
  split; [|split].
  - exists [(Shorten Demo.url_a Demo.localhost, Shortened (Demo.shortened_a "aaaaaa"))].
    apply (run_cons Demo.stuck 1 _ _ _ Demo.stuck_world); [reflexivity | constructor].
  - split.
    + split; [reflexivity|].
      apply Forall_forall. intros x Hx. simpl in Hx.
      destruct Hx as [<-|[<-|[<-|[<-|[<-|[<-|[]]]]]]];
        first [left; reflexivity | right; left; reflexivity].
    + simpl. intros [H|[]]. discriminate H.
  - intros fuel. split; [now apply stuck_generate|].
    cbn [handle]. rewrite shorten_url_create by reflexivity.
    now rewrite stuck_generate.
Qed.

(** The records of [Demo.world_ab] sit under their own codes. *)
Lemma key_field_agreement_witness :
  reachable Demo.counting Demo.world_ab /\
  key_field_agree (fake_db Demo.world_ab).
Proof.
  assert (Hreach : reachable Demo.counting Demo.world_ab)
    by (exists Demo.history_ab; apply demo_run_ab).
  split; [exact Hreach|].
  exact (proj1 (proj2 (key_field_agreement Demo.counting)) Demo.world_ab Hreach).
Defined.

(** ** The further properties on the sample data *)

Lemma demo_reachable_a : reachable Demo.counting Demo.world_a.
Proof.
  exists [(Shorten Demo.url_a Demo.localhost, Shortened (Demo.shortened_a "abcdef"))].
  apply (run_cons Demo.counting 1 _ _ _ Demo.world_a); [reflexivity | constructor].
Qed.

Lemma demo_reachable_ab : reachable Demo.counting Demo.world_ab.
Proof. exists Demo.history_ab. apply demo_run_ab. Qed.

Lemma demo_run_aba : run Demo.counting init_world Demo.history_aba Demo.world_ab.
Proof.
  apply (run_app Demo.counting _ _ Demo.world_ab); [apply demo_run_ab|].
  apply (run_cons Demo.counting 0 _ _ _ Demo.world_ab); [reflexivity | constructor].
Qed.

Lemma demo_run_a_clicks :
  run Demo.counting init_world Demo.history_a_clicks Demo.world_a2.
Proof.
  apply (run_cons Demo.counting 1 _ _ _ Demo.world_a); [reflexivity|].
  apply demo_run_clicks.
Qed.

Lemma uuid_of_inj i j : Demo.uuid_of i = Demo.uuid_of j -> i = j.
Proof.
  unfold Demo.uuid_of. intros H. cbn [append] in H. injection H as H.
  apply (f_equal NilEmpty.uint_of_string) in H.
  rewrite !NilEmpty.usu in H. injection H as H.
  now apply Unsigned.to_uint_inj.
Qed.

(** The two long URLs of [Demo.world_ab] differ. *)
Lemma long_urls_unique_witness :
  reachable Demo.counting Demo.world_ab /\
  NoDup (stored_urls (fake_db Demo.world_ab)) /\
  records_for "https://example.com/a" (fake_db Demo.world_ab) <= 1.
Proof.
  destruct (long_urls_unique Demo.counting Demo.world_ab demo_reachable_ab)
    as [Hnd Hle].
  split; [exact demo_reachable_ab|]. split; [exact Hnd|].
  exact (Hle "https://example.com/a").
Defined.

(** The record of [abcdef] across [Demo.history_clicks]. *)
Lemma records_persist_witness :
  run Demo.counting Demo.world_a Demo.history_clicks Demo.world_a2 /\
  PyDict.get "abcdef" (fake_db Demo.world_a) = Some (Demo.info_a "abcdef" 0) /\
  exists info',
    PyDict.get "abcdef" (fake_db Demo.world_a2) = Some info' /\
    same_link (Demo.info_a "abcdef" 0) info' /\
    (0 <= URLInfo.clicks info')%Z.
Proof.
  split; [exact demo_run_clicks|]. split; [reflexivity|].
  exact (records_persist Demo.counting Demo.world_a Demo.history_clicks
           Demo.world_a2 "abcdef" (Demo.info_a "abcdef" 0)
           demo_run_clicks eq_refl).
Defined.

(** One redirect of [abcdef] in [Demo.world_pipe]: the counter goes from 0
    to 1 and the target is the stored URL with its [|] quoted. *)
Lemma redirect_frame_witness :
  let db1 := [("abcdef",
               URLInfo.mk "uuid-0" "https://example.com/?q=a|b" "abcdef"
                          "http://127.0.0.1:8000/abcdef" 1)] in
  let r := RedirectResponse.mk "https://example.com/?q=a%7Cb" 307 in
  redirect_to_long_url "abcdef" Demo.world_pipe = Returned r (mkWorld db1 6 1) /\
  exists info,
    PyDict.get "abcdef" (fake_db Demo.world_pipe) = Some info /\
    r = RedirectResponse.init (URLInfo.long_url info) HTTP_307_TEMPORARY_REDIRECT /\
    RedirectResponse.location r =
    PyUrllib.quote (URLInfo.long_url info) RedirectResponse.safe /\
    PyDict.get "abcdef" db1 = Some (URLInfo.incr_clicks info) /\
    (forall code', code' <> "abcdef" ->
                   PyDict.get code' db1 = PyDict.get code' (fake_db Demo.world_pipe)) /\
    PyDict.keys db1 = PyDict.keys (fake_db Demo.world_pipe) /\
    6 = rand_pos Demo.world_pipe /\ 1 = uuid_pos Demo.world_pipe.
Proof.
  intros db1 r. split; [reflexivity|].
  exact (proj2 (redirect_frame "abcdef" Demo.world_pipe) r (mkWorld db1 6 1) eq_refl).
Defined.

(** [abc] is too short to be a key. *)
Lemma ill_shaped_not_found_witness :
  reachable Demo.counting Demo.world_a /\ ~ code_shaped "abc" /\
  redirect_to_long_url "abc" Demo.world_a = Raised NotFound Demo.world_a /\
  get_url_stats "abc" Demo.world_a = Raised NotFound Demo.world_a.
Proof.
  assert (Hshape : ~ code_shaped "abc") by (intros [Hlen _]; discriminate Hlen).
  split; [exact demo_reachable_a|]. split; [exact Hshape|].
  exact (ill_shaped_not_found Demo.counting Demo.world_a "abc" demo_reachable_a Hshape).
Defined.

(** The first record of the process. *)
Lemma shorten_url_appends_witness :
  find_long_url "https://example.com/a" (fake_db init_world) = None /\
  shorten_url Demo.counting 1 Demo.url_a Demo.localhost init_world =
  Returned (Demo.shortened_a "abcdef") Demo.world_a /\
  exists i,
    i < 1 /\ first_free Demo.counting 6 0 [] i /\
    "abcdef" = candidate Demo.counting 6 0 i /\
    fake_db Demo.world_a = [] ++ [("abcdef", Demo.info_a "abcdef" 0)] /\
    get_all_urls Demo.world_a =
    Returned ([] ++ [Demo.info_a "abcdef" 0]) Demo.world_a /\
    6 = 0 + 6 * S i /\ 1 = 1.
Proof.
  split; [reflexivity|]. split; [reflexivity|].
  exact (shorten_url_appends Demo.counting 1 Demo.url_a Demo.localhost init_world
           (Demo.shortened_a "abcdef") Demo.world_a eq_refl eq_refl).
Defined.

(** The ids of [Demo.world_ab] are [uuid-0] and [uuid-1]. *)
Lemma record_ids_witness :
  reachable Demo.counting Demo.world_ab /\
  (forall i j, Demo.uuid_of i = Demo.uuid_of j -> i = j) /\
  stored_ids (fake_db Demo.world_ab) = ["uuid-0"; "uuid-1"] /\
  2 = length (fake_db Demo.world_ab) /\
  NoDup (stored_ids (fake_db Demo.world_ab)).
Proof.
  destruct (record_ids Demo.counting Demo.world_ab demo_reachable_ab)
    as (Hids & Hlen & Hnd).
  split; [exact demo_reachable_ab|]. split; [exact uuid_of_inj|].
  split; [exact Hids|]. split; [exact Hlen | exact (Hnd uuid_of_inj)].
Defined.

(** A code of length 3. *)
Lemma generate_short_code_any_length_witness :
  generate_short_code Demo.counting 1 3 init_world =
  Returned "abc" (mkWorld [] 3 0) /\
  String.length "abc" = 3 /\
  ~ In "abc" (PyDict.keys (fake_db (mkWorld [] 3 0))).
Proof.
  split; [reflexivity|].
  destruct (generate_short_code_any_length Demo.counting 1 3 init_world "abc"
              (mkWorld [] 3 0) eq_refl) as (Hlen & _ & Hfresh & _).
  split; [exact Hlen | exact Hfresh].
Defined.

(** A negative length on the empty registry. *)
Lemma generate_short_code_nonpositive_witness :
  (-2 <= 0)%Z /\ PyDict.contains "" (fake_db init_world) = false /\
  generate_short_code Demo.counting 1 (-2) init_world = Returned "" init_world.
Proof.
  assert (Hlen : (-2 <= 0)%Z) by lia.
  split; [exact Hlen|]. split; [reflexivity|].
  exact (proj1 (generate_short_code_nonpositive Demo.counting 0 (-2) init_world Hlen)
           eq_refl).
Defined.

(** The base URL of [Demo.localhost] ends with a slash; the short URL has
    one slash before the code. *)
Lemma shorten_url_short_url_witness :
  shorten_url Demo.counting 1 Demo.url_a Demo.localhost init_world =
  Returned (Demo.shortened_a "abcdef") Demo.world_a /\
  exists base n,
    "http://127.0.0.1:8000/" = (base ++ run_of "/" n)%string /\
    last_char base <> Some "/"%char /\
    "http://127.0.0.1:8000/abcdef" = (base ++ "/" ++ "abcdef")%string.
Proof.
  split; [reflexivity|].
  exact (proj1 (proj2 (shorten_url_short_url Demo.counting 1 Demo.url_a Demo.localhost
                         init_world (Demo.shortened_a "abcdef") Demo.world_a eq_refl))).
Defined.

(** [url_b] is stored after [Demo.history_ab] because it was submitted. *)
Lemma stored_urls_submitted_witness :
  run Demo.counting init_world Demo.history_ab Demo.world_ab /\
  (In "https://example.com/b" (stored_urls (fake_db Demo.world_ab)) <->
   In "https://example.com/b" [] \/
   In "https://example.com/b" ["https://example.com/a"; "https://example.com/b"]).
Proof.
  split; [exact demo_run_ab|].
  exact (stored_urls_submitted Demo.counting init_world Demo.history_ab Demo.world_ab
           "https://example.com/b" demo_run_ab).
Defined.

(** Both answers for [url_a] in [Demo.history_aba] carry [abcdef]. *)
Lemma shorten_url_stable_witness :
  reachable Demo.counting init_world /\
  run Demo.counting init_world Demo.history_aba Demo.world_ab /\
  In ("https://example.com/a", "abcdef") (shortened Demo.history_aba) /\
  "abcdef" = "abcdef".
Proof.
  assert (Hin : In ("https://example.com/a", "abcdef") (shortened Demo.history_aba))
    by (simpl; auto).
  split; [apply init_reachable|]. split; [exact demo_run_aba|]. split; [exact Hin|].
  exact (shorten_url_stable Demo.counting init_world Demo.history_aba Demo.world_ab
           "https://example.com/a" "abcdef" "abcdef"
           (init_reachable Demo.counting) demo_run_aba Hin Hin).
Defined.

(** [ghijkl] still leads to [url_b] after [Demo.history_aba]. *)
Lemma issued_codes_redirect_witness :
  In ("https://example.com/b", "ghijkl") (shortened Demo.history_aba) /\
  (exists r w2,
      redirect_to_long_url "ghijkl" Demo.world_ab = Returned r w2 /\
      r = RedirectResponse.init "https://example.com/b" 307 /\
      RedirectResponse.location r = "https://example.com/b") /\
  (exists info,
      get_url_stats "ghijkl" Demo.world_ab = Returned info Demo.world_ab /\
      URLInfo.long_url info = "https://example.com/b").
Proof.
  assert (Hin : In ("https://example.com/b", "ghijkl") (shortened Demo.history_aba))
    by (simpl; auto).
  split; [exact Hin|].
  exact (issued_codes_redirect Demo.counting init_world Demo.history_aba Demo.world_ab
           "https://example.com/b" "ghijkl"
           (init_reachable Demo.counting) demo_run_aba Hin).
Defined.

(** Two of the three requests after the creation are successful redirects
    of [abcdef]. *)
Lemma clicks_count_redirects_witness :
  run Demo.counting init_world Demo.history_a_clicks Demo.world_a2 /\
  PyDict.get "abcdef" (fake_db Demo.world_a2) = Some (Demo.info_a "abcdef" 2) /\
  URLInfo.clicks (Demo.info_a "abcdef" 2) = 2%Z.
Proof.
  split; [exact demo_run_a_clicks|]. split; [reflexivity|].
  exact (clicks_count_redirects Demo.counting Demo.history_a_clicks Demo.world_a2
           "abcdef" (Demo.info_a "abcdef" 2) demo_run_a_clicks eq_refl).
Defined.

(** The sum of the counters over [Demo.history_clicks]. *)
Lemma total_clicks_count_witness :
  run Demo.counting Demo.world_a Demo.history_clicks Demo.world_a2 /\
  total_clicks (fake_db Demo.world_a2) = (0 + 2)%Z.
Proof.
  split; [exact demo_run_clicks|].
  exact (total_clicks_count Demo.counting Demo.world_a Demo.history_clicks
           Demo.world_a2 demo_run_clicks).
Defined.

(** The listing after [Demo.history_aba]: [abcdef] once, in front. *)
Lemma listing_in_issue_order_witness :
  run Demo.counting init_world Demo.history_aba Demo.world_ab /\
  exists l,
    get_all_urls Demo.world_ab = Returned l Demo.world_ab /\
    map URLInfo.short_code l = ["abcdef"; "ghijkl"].
Proof.
  split; [exact demo_run_aba|].
  exact (listing_in_issue_order Demo.counting Demo.history_aba Demo.world_ab
           demo_run_aba).
Defined.
